(** * Steam network backend: authentication controller, resume race,
      owned-games forwarding and feature queries.

    Shallow embedding of [src/backend_steam_network.py].  The backend is a
    coroutine-based object living on a single cooperative scheduler; its
    methods are embedded as computations in a state-and-exception monad
    that also records every call made to a collaborator.  Whatever a
    collaborator answers at a suspension point, and whatever the protocol
    session writes into the shared caches while the caller is suspended,
    is supplied by an explicit environment. *)

From Stdlib Require Import ZArith String Ascii List DecimalString Lia ZifyNat.
From Stdlib.Strings Require Import Byte.
From stdpp Require Import base gmap strings list.

Open Scope Z_scope.
Open Scope string_scope.
Open Scope list_scope.

(** ** Module-level constants *)

Definition GAME_CACHE_IS_READY_TIMEOUT : Z := 90.
Definition USER_INFO_CACHE_INITIALIZED_TIMEOUT : Z := 30.
Definition GAME_DOES_NOT_SUPPORT_LAST_PLAYED_VALUE : Z := 86400.
Definition STEAMCOMMUNITY_PROFILE_BASE_URL : string :=
  "https://steamcommunity.com/profiles/".
Definition NO_AVATAR_SET : string := "0000000000000000000000000000000000000000".
Definition DEFAULT_AVATAR_HASH : string := "fef49e7fa7e1997310d705b2a6158ff8dc1cdfeb".

(** [AVATAR_URL_TEMPLATE.format(a, b)] *)
Definition AVATAR_URL_TEMPLATE_format (a b : string) : string :=
  ("https://steamcdn-a.akamaihd.net/steamcommunity/public/images/avatars/"
     ++ a ++ "/" ++ b ++ "_full.jpg")%string.

(** ** Python values used by the backend *)

(** Exceptions that the backend raises, catches or lets through. *)
Inductive Exn : Type :=
| AuthenticationRequired
| UnknownBackendResponse
| UnknownError (msg : string)
| BackendTimeout
| TimeoutError
| CancelledError
| KeyError (key : string)
| IndexError
| TypeError
| AttributeError
| ValueError
| ProfileIsNotPublic
| NotPublicGameDetailsOrUserHasNoGames
| ProfileDoesNotExist
| OtherException (name : string).

Global Instance Exn_eq_dec : EqDecision Exn.
Proof. solve_decision. Defined.

(** Outcome of a call: a value, or a raised exception. *)
Inductive Result (A : Type) : Type :=
| Ok (a : A)
| Raise (e : Exn).
Arguments Ok {A} a.
Arguments Raise {A} e.

(** Modelled from the spec: the handshake outcome enumeration
    [UserActionRequired] of the websocket client, whose module is not part
    of the sources; the backend compares against the first three members
    and treats every other member alike. *)
Inductive UserActionRequired : Type :=
| NoActionRequired
| EmailTwoFactorInputRequired
| PhoneTwoFactorInputRequired
| InvalidAuthData.

Global Instance UserActionRequired_eq_dec : EqDecision UserActionRequired.
Proof. solve_decision. Defined.

(** Modelled from the spec: the interactive forms ([StartUri]) and the
    completions ([EndUri]) named by the backend; a next step is the pair
    built by [next_step_response]. *)
Inductive StartUri : Type :=
| LOGIN
| LOGIN_FAILED
| TWO_FACTOR_MAIL
| TWO_FACTOR_MAIL_FAILED
| TWO_FACTOR_MOBILE
| TWO_FACTOR_MOBILE_FAILED
| PP_PROMPT__PROFILE_IS_NOT_PUBLIC
| PP_PROMPT__NOT_PUBLIC_GAME_DETAILS_OR_USER_HAS_NO_GAMES
| PP_PROMPT__UNKNOWN_ERROR.

Inductive EndUri : Type :=
| LOGIN_FINISHED
| TWO_FACTOR_MAIL_FINISHED
| TWO_FACTOR_MOBILE_FINISHED
| PUBLIC_PROMPT_FINISHED.

(** What an authentication entry point hands back to the host.  A Python
    coroutine that falls off its end returns [None]. *)
Inductive AuthReturn : Type :=
| Authentication (user_id : option Z) (user_name : option string)
| NextStep (start_uri : StartUri) (end_uri : EndUri)
| PyNone.

Definition next_step_response (s : StartUri) (e : EndUri) : AuthReturn :=
  NextStep s e.

(** Item put on the outbound ["websocket"] queue: [{"password": p}] or
    [{"password": p, "two_factor": c}]. *)
Record Payload : Type := mkPayload {
  password : string;
  two_factor : option string
}.

(** Modelled from the spec: an item of the inbound ["plugin"] queue, which
    carries one handshake outcome under the key ["auth_result"]; the
    producer of these items is not part of the sources. *)
Record PluginMsg : Type := mkPluginMsg {
  auth_result : UserActionRequired
}.

(** The host's types ([galaxy.api.types]), with the fields the backend
    fills in. *)
Inductive LicenseType : Type := SinglePurchase.

Record LicenseInfo : Type := mkLicenseInfo {
  license_type : LicenseType;
  license_owner : option string
}.

Record Game : Type := mkGame {
  game_id : string;
  game_title : string;
  dlcs : list string;
  license_info : LicenseInfo
}.

Inductive SubscriptionDiscovery : Type := AUTOMATIC.

Record Subscription : Type := mkSubscription {
  subscription_name : string;
  owned : bool;
  end_time : option Z;
  subscription_discovery : SubscriptionDiscovery
}.

Record GameTime : Type := mkGameTime {
  gt_game_id : string;
  time_played : option Z;
  last_played_time : option Z
}.

Record UserInfo : Type := mkUserInfo {
  user_id : string;
  user_name : string;
  avatar_url : string;
  profile_url : string
}.

(** Modelled from the spec: a catalog entry (id, title) as the games cache
    hands it out; its class is not part of the sources.  The id is a
    string, on which [str] is the identity. *)
Record App : Type := mkApp {
  appid : string;
  title : string
}.

(** Modelled from the spec: the presence-relevant record of a peer kept by
    the friends cache, with the two attributes the backend reads; its
    class is not part of the sources. *)
Record ProtoUserInfo : Type := mkProtoUserInfo {
  name : string;
  avatar_hash : list byte
}.

(** Friend identifiers are used both raw and through [str(...)] as
    dictionary keys; a Python [int] never equals a [str]. *)
Inductive PyKey : Type :=
| KInt (z : Z)
| KStr (s : string).

Global Instance PyKey_eq_dec : EqDecision PyKey.
Proof. solve_decision. Defined.

Definition str_Z (z : Z) : string := NilZero.string_of_int (Z.to_int z).

Definition py_str (k : PyKey) : string :=
  match k with
  | KInt z => str_Z z
  | KStr s => s
  end.

(** Lookup in a dictionary kept in insertion order. *)
Fixpoint dict_get {V : Type} (d : list (PyKey * V)) (k : PyKey) : option V :=
  match d with
  | [] => None
  | (k', v) :: d' => if decide (k' = k) then Some v else dict_get d' k
  end.

(** ** Strings *)

(** [needle in hay] on Python strings. *)
Fixpoint str_in (needle hay : string) : bool :=
  String.prefix needle hay ||
  match hay with
  | EmptyString => false
  | String _ hay' => str_in needle hay'
  end.

Definition lower_ascii (c : ascii) : ascii :=
  let n := nat_of_ascii c in
  if (Nat.leb 65 n && Nat.leb n 90)%bool then ascii_of_nat (n + 32) else c.

Fixpoint str_lower (s : string) : string :=
  match s with
  | EmptyString => EmptyString
  | String c s' => String (lower_ascii c) (str_lower s')
  end.

(** [distutils.util.strtobool], applied to the result of a [dict.get]:
    [None] has no [lower] attribute. *)
Definition strtobool (val : option string) : Result bool :=
  match val with
  | None => Raise AttributeError
  | Some v =>
      let v := str_lower v in
      if bool_decide (v ∈ ["y"; "yes"; "t"; "true"; "on"; "1"]) then Ok true
      else if bool_decide (v ∈ ["n"; "no"; "f"; "false"; "off"; "0"]) then Ok false
      else Raise ValueError
  end.

Definition hex_digit (n : N) : ascii :=
  match n with
  | 0%N => "0" | 1%N => "1" | 2%N => "2" | 3%N => "3"
  | 4%N => "4" | 5%N => "5" | 6%N => "6" | 7%N => "7"
  | 8%N => "8" | 9%N => "9" | 10%N => "a" | 11%N => "b"
  | 12%N => "c" | 13%N => "d" | 14%N => "e" | _ => "f"
  end%char.

(** [bytes.hex()] *)
Fixpoint bytes_hex (bs : list byte) : string :=
  match bs with
  | [] => EmptyString
  | b :: bs' =>
      let n := Byte.to_N b in
      String (hex_digit (n / 16)) (String (hex_digit (n mod 16)) (bytes_hex bs'))
  end.

Definition avatar_url_from_avatar_hash (a_hash : string) : string :=
  let a_hash := if String.eqb a_hash NO_AVATAR_SET then DEFAULT_AVATAR_HASH else a_hash in
  AVATAR_URL_TEMPLATE_format (String.substring 0 2 a_hash) a_hash.

Definition _galaxy_user_info_from_user_info (user_id : string) (user_info : ProtoUserInfo)
  : UserInfo :=
  let avatar_url := avatar_url_from_avatar_hash (bytes_hex (avatar_hash user_info)) in
  let profile_link := (STEAMCOMMUNITY_PROFILE_BASE_URL ++ user_id)%string in
  mkUserInfo user_id (name user_info) avatar_url profile_link.

(** ** Shared caches and backend state *)

(** Modelled from the spec: the Identity Record kept by [UserInfoCache]
    (account id, display name, username, changed flag, readiness signal);
    the class itself is not part of the sources. *)
Record UserInfoCache : Type := mkUserInfoCache {
  steam_id : option Z;
  persona_name : option string;
  account_username : option string;
  changed : bool;
  initialized : bool
}.

(** Modelled from the spec: the part of the Catalog Cache the backend
    touches without suspending: the queue of entries added since the last
    drain and the gate that accepts further additions. *)
Record GamesCache : Type := mkGamesCache {
  added_games : list App;
  add_game_lever : bool
}.

(** Modelled from the spec: the Playtime Cache, keyed by entitlement id,
    each record keyed by field name. *)
Record TimesCache : Type := mkTimesCache {
  times_import_in_progress : bool;
  times : gmap string (gmap string Z)
}.

(** Modelled from the spec: the "import in progress" flag of the
    Statistics Cache. *)
Record StatsCache : Type := mkStatsCache {
  stats_import_in_progress : bool
}.

(** Objects the backend shares with the protocol session and the host;
    the protocol session may write to them whenever the backend is
    suspended. *)
Record Shared : Type := mkShared {
  _user_info_cache : UserInfoCache;
  _games_cache : GamesCache;
  _stats_cache : StatsCache;
  _times_cache : TimesCache;
  _persistent_cache : gmap string string;
  _persistent_storage_state_modified : bool
}.

Inductive Task : Type :=
| WebsocketRun
| UserInfoInitializedWait.

(** The backend object: shared collaborators plus the attributes only the
    backend itself assigns. *)
Record World : Type := mkWorld {
  shared : Shared;
  _auth_data : option (string * string);
  _owned_games_parsed : bool;
  _steam_run_task : option Task
}.

Definition with_shared (f : Shared -> Shared) (w : World) : World :=
  mkWorld (f (shared w)) (_auth_data w) (_owned_games_parsed w) (_steam_run_task w).

Definition with_user_info_cache (f : UserInfoCache -> UserInfoCache) (s : Shared) : Shared :=
  mkShared (f (_user_info_cache s)) (_games_cache s) (_stats_cache s) (_times_cache s)
           (_persistent_cache s) (_persistent_storage_state_modified s).

Definition with_games_cache (f : GamesCache -> GamesCache) (s : Shared) : Shared :=
  mkShared (_user_info_cache s) (f (_games_cache s)) (_stats_cache s) (_times_cache s)
           (_persistent_cache s) (_persistent_storage_state_modified s).

Definition with_persistent_cache (f : gmap string string -> gmap string string) (s : Shared)
  : Shared :=
  mkShared (_user_info_cache s) (_games_cache s) (_stats_cache s) (_times_cache s)
           (f (_persistent_cache s)) (_persistent_storage_state_modified s).

Definition set_storage_modified (b : bool) (s : Shared) : Shared :=
  mkShared (_user_info_cache s) (_games_cache s) (_stats_cache s) (_times_cache s)
           (_persistent_cache s) b.

Definition set_account_username (u : string) (c : UserInfoCache) : UserInfoCache :=
  mkUserInfoCache (steam_id c) (persona_name c) (Some u) (changed c) (initialized c).

Definition set_auth_data (d : option (string * string)) (w : World) : World :=
  mkWorld (shared w) d (_owned_games_parsed w) (_steam_run_task w).

Definition set_owned_games_parsed (b : bool) (w : World) : World :=
  mkWorld (shared w) (_auth_data w) b (_steam_run_task w).

Definition set_steam_run_task (t : option Task) (w : World) : World :=
  mkWorld (shared w) (_auth_data w) (_owned_games_parsed w) t.

Definition user_info (w : World) : UserInfoCache := _user_info_cache (shared w).

(** ** Calls to collaborators *)

Inductive CacheName : Type := GamesCacheName | StatsCacheName | TimesCacheName.

Inductive GamesIter : Type := OwnedGames | SharedGames.

(** Every call that leaves the backend, in program order. *)
Inductive Event : Type :=
| EvQueuePut (queue : string) (item : Payload)
| EvQueueGet (queue : string) (timeout : Z)
| EvCheckIsPublic (sid : option Z)
| EvStoreCredentials (creds : gmap string string)
| EvAddGame (g : Game)
| EvSleep (secs : Z)
| EvCreateTask (t : Task)
| EvWait (tasks : list Task) (timeout : Z)
| EvAwaitTask (t : Task)
| EvCancelTask (t : Task)
| EvWaitReady (c : CacheName) (timeout : Z)
| EvIterGames (which : GamesIter)
| EvRefreshGameStats (game_ids : list string)
| EvRefreshGameTimes
| EvRetrieveCollections
| EvGetFriends
| EvGetFriendsInfo (ids : list PyKey)
| EvGetFriendsNicknames.

Definition Trace : Type := list Event.

(** The environment: what each collaborator answers, as a function of the
    calls made so far (the last one being the call answered), and what the
    protocol session writes into the shared objects during a suspension. *)
Record Env : Type := mkEnv {
  protocol_writes : Trace -> Shared -> Shared;
  (** [None]: nothing arrived within the bound ([asyncio.TimeoutError]) *)
  env_queue_get : Trace -> option PluginMsg;
  (** [None]: the check returned normally *)
  env_check_is_public : Trace -> option Exn;
  (** the [done] set of [asyncio.wait] *)
  env_wait_done : Trace -> list Task;
  (** how an awaited task ended; [None]: it returned *)
  env_task_outcome : Trace -> option Exn;
  env_wait_ready : Trace -> option Exn;
  (** entries an asynchronous generator yields, then how it ends *)
  env_iter_games : Trace -> list App * option Exn;
  env_request : Trace -> option Exn;
  env_collections : Trace -> Result (list (string * list Z));
  env_friends : Trace -> Result (list PyKey);
  env_friends_info : Trace -> Result (list (PyKey * ProtoUserInfo));
  env_friends_nicknames : Trace -> Result (list (PyKey * string))
}.

(** Functions of the Python standard library and of collaborator classes
    that the backend calls without suspending. *)
Record Library : Type := mkLibrary {
  (** [parse.urlsplit(uri).query], for the addresses [urlsplit] accepts;
      on the others it raises [ValueError], which the handlers let
      through before doing anything else *)
  urlsplit_query : string -> string;
  parse_qs : string -> gmap string (list string);
  parse_qsl : string -> list (string * string);
  (** [UserInfoCache.to_dict] and [UserInfoCache.from_dict] *)
  to_dict : UserInfoCache -> gmap string string;
  from_dict : gmap string string -> UserInfoCache -> UserInfoCache;
  (** [GamesCache.dump] *)
  games_cache_dump : GamesCache -> string;
  WITCHER_3_DLCS_APP_IDS : gset string;
  WITCHER_3_GOTY_APP_ID : string;
  WITCHER_3_GOTY_TITLE : string;
  does_witcher_3_dlcs_set_resolve_to_GOTY : gset string -> bool
}.

(** ** The monad of backend coroutines *)

Definition M (A : Type) : Type := World -> Trace -> Result A * World * Trace.

Definition ret {A : Type} (a : A) : M A := fun w tr => (Ok a, w, tr).

Definition bind {A B : Type} (m : M A) (k : A -> M B) : M B :=
  fun w tr =>
    match m w tr with
    | (Ok a, w', tr') => k a w' tr'
    | (Raise e, w', tr') => (Raise e, w', tr')
    end.

Definition raise {A : Type} (e : Exn) : M A := fun w tr => (Raise e, w, tr).

Definition lift_result {A : Type} (r : Result A) : M A := fun w tr => (r, w, tr).

Definition get_world : M World := fun w tr => (Ok w, w, tr).

Definition modify (f : World -> World) : M unit := fun w tr => (Ok tt, f w, tr).

(** A call that does not suspend the caller (host callbacks). *)
Definition emit (ev : Event) : M unit := fun w tr => (Ok tt, w, tr ++ [ev]).

(** [try: body except ...: handler]; [handler e = None] when no clause
    matches [e]. *)
Definition try_except {A : Type} (body : M A) (handler : Exn -> option (M A)) : M A :=
  fun w tr =>
    match body w tr with
    | (Raise e, w', tr') =>
        match handler e with
        | Some h => h w' tr'
        | None => (Raise e, w', tr')
        end
    | r => r
    end.

(** [try: body finally: fin] *)
Definition try_finally {A : Type} (body : M A) (fin : M unit) : M A :=
  fun w tr =>
    match body w tr with
    | (r, w', tr') =>
        match fin w' tr' with
        | (Ok _, w'', tr'') => (r, w'', tr'')
        | (Raise e, w'', tr'') => (Raise e, w'', tr'')
        end
    end.

Declare Scope backend_scope.
Delimit Scope backend_scope with backend.
Notation "x <- m ;; k" := (bind m (fun x => k))
  (at level 100, m at next level, right associativity) : backend_scope.
Notation "m ;; k" := (bind m (fun _ => k))
  (at level 100, right associativity) : backend_scope.
Open Scope backend_scope.

(** [except Exception] does not catch a cancellation, which derives from
    [BaseException]. *)
Definition is_Exception (e : Exn) : bool :=
  match e with
  | CancelledError => false
  | _ => true
  end.

(** [d[k]] on a dictionary. *)
Definition subscript {V : Type} (d : gmap string V) (k : string) : M V :=
  match d !! k with
  | Some v => ret v
  | None => raise (KeyError k)
  end.

(** [l[0]] on a list. *)
Definition first_item {V : Type} (l : list V) : M V :=
  match l with
  | v :: _ => ret v
  | [] => raise IndexError
  end.

Global Instance Task_eq_dec : EqDecision Task.
Proof. solve_decision. Defined.

(** [k in d] on a dictionary. *)
Definition dict_has {V : Type} (d : gmap string V) (k : string) : bool :=
  match d !! k with
  | Some _ => true
  | None => false
  end.

(** [dict(pairs)]: a later pair overrides an earlier one with the same key. *)
Definition dict_of_pairs (pairs : list (string * string)) : gmap string string :=
  list_to_map (reverse pairs).

Definition set_user_name (n : string) (u : UserInfo) : UserInfo :=
  mkUserInfo (user_id u) n (avatar_url u) (profile_url u).

(** The body of the loop of [get_friends] over the friends' records. *)
Fixpoint translate_friends (friends_infos : list (PyKey * ProtoUserInfo))
    (friends_nicknames : list (PyKey * string)) : Result (list UserInfo) :=
  match friends_infos with
  | [] => Ok []
  | (friend_id, info) :: rest =>
      let friend := _galaxy_user_info_from_user_info (py_str friend_id) info in
      let renamed :=
        match dict_get friends_nicknames (KStr (py_str friend_id)) with
        | Some _ =>
            match dict_get friends_nicknames friend_id with
            | Some nick =>
                Ok (set_user_name (user_name friend ++ " (" ++ nick ++ ")")%string friend)
            | None => Raise (KeyError (py_str friend_id))
            end
        | None => Ok friend
        end in
      match renamed with
      | Raise e => Raise e
      | Ok friend =>
          match translate_friends rest friends_nicknames with
          | Ok friends => Ok (friend :: friends)
          | Raise e => Raise e
          end
      end
  end.

(** ** The backend *)

Section Backend.

Variable lib : Library.
Variable env : Env.

(** A suspension point: the call is recorded, and the protocol session
    gets to write into the shared objects before the caller resumes. *)
Definition await (ev : Event) : M unit :=
  fun w tr =>
    let tr' := tr ++ [ev] in
    (Ok tt, with_shared (protocol_writes env tr') w, tr').

(** The collaborator's answer to the call made last. *)
Definition answer {A : Type} (oracle : Env -> Trace -> A) : M A :=
  fun w tr => (Ok (oracle env tr), w, tr).

Definition raise_if (o : option Exn) : M unit :=
  match o with
  | Some e => raise e
  | None => ret tt
  end.

Definition wait_ready (c : CacheName) (timeout : Z) : M unit :=
  await (EvWaitReady c timeout);;
  o <- answer env_wait_ready;;
  raise_if o.

Definition request (ev : Event) : M unit :=
  await ev;;
  o <- answer env_request;;
  raise_if o.

Definition require_steam_id : M unit :=
  w <- get_world;;
  match steam_id (user_info w) with
  | None => raise AuthenticationRequired
  | Some _ => ret tt
  end.

Definition current_authentication : M AuthReturn :=
  w <- get_world;;
  ret (Authentication (steam_id (user_info w)) (persona_name (user_info w))).

Definition store_current_credentials : M unit :=
  w <- get_world;;
  emit (EvStoreCredentials (to_dict lib (user_info w))).

Definition _cancel_task (task : Task) : M unit :=
  try_except
    (emit (EvCancelTask task);;
     await (EvAwaitTask task);;
     o <- answer env_task_outcome;;
     raise_if o)
    (fun e => match e with
              | CancelledError => Some (ret tt)
              | _ => None
              end).

(** *** Periodic tasks *)

Definition consume_added_games : M (list App) :=
  w <- get_world;;
  modify (with_shared (with_games_cache (fun g => mkGamesCache [] (add_game_lever g))));;
  ret (added_games (_games_cache (shared w))).

Definition persist_games_cache : M unit :=
  w <- get_world;;
  modify (with_shared (with_persistent_cache
            (<["games" := games_cache_dump lib (_games_cache (shared w))]>)));;
  modify (with_shared (set_storage_modified true)).

(** [for i, game in enumerate(new_games)], from index [i] on. *)
Fixpoint forward_new_games (i : nat) (new_games : list App) : M unit :=
  match new_games with
  | [] => ret tt
  | game :: rest =>
      emit (EvAddGame (mkGame (appid game) (title game) []
                              (mkLicenseInfo SinglePurchase None)));;
      (if (i mod 50 =? 49)%nat then await (EvSleep 5) else ret tt);;
      forward_new_games (S i) rest
  end.

Definition _update_owned_games : M unit :=
  new_games <- consume_added_games;;
  match new_games with
  | [] => ret tt
  | _ :: _ =>
      persist_games_cache;;
      forward_new_games 0 new_games
  end.

(** *** Authentication *)

Definition _get_websocket_auth_step : M UserActionRequired :=
  try_except
    (await (EvQueueGet "plugin" 20);;
     result <- answer env_queue_get;;
     match result with
     | Some result => ret (auth_result result)
     | None => raise TimeoutError
     end)
    (fun e => match e with
              | TimeoutError => Some (ret NoActionRequired)
              | _ => None
              end).

Definition _check_public_profile : M AuthReturn :=
  w <- get_world;;
  step <- try_except
    (await (EvCheckIsPublic (steam_id (user_info w)));;
     o <- answer env_check_is_public;;
     raise_if o;;
     ret None)
    (fun e =>
       match e with
       | ProfileIsNotPublic =>
           Some (ret (Some (next_step_response PP_PROMPT__PROFILE_IS_NOT_PUBLIC
                                               PUBLIC_PROMPT_FINISHED)))
       | NotPublicGameDetailsOrUserHasNoGames =>
           Some (ret (Some (next_step_response
                              PP_PROMPT__NOT_PUBLIC_GAME_DETAILS_OR_USER_HAS_NO_GAMES
                              PUBLIC_PROMPT_FINISHED)))
       | ProfileDoesNotExist => Some (raise UnknownBackendResponse)
       | ValueError => Some (raise UnknownBackendResponse)
       | _ =>
           if is_Exception e
           then Some (ret (Some (next_step_response PP_PROMPT__UNKNOWN_ERROR
                                                    PUBLIC_PROMPT_FINISHED)))
           else None
       end);;
  match step with
  | Some step => ret step
  | None => current_authentication
  end.

Definition _handle_login_finished (credentials : gmap string string) : M AuthReturn :=
  end_uri <- subscript credentials "end_uri";;
  let params := parse_qs lib (urlsplit_query lib end_uri) in
  if negb (dict_has params "username") || negb (dict_has params "password")
  then ret (next_step_response LOGIN_FAILED LOGIN_FINISHED)
  else
    usernames <- subscript params "username";;
    username <- first_item usernames;;
    passwords <- subscript params "password";;
    password <- first_item passwords;;
    modify (with_shared (with_user_info_cache (set_account_username username)));;
    modify (set_auth_data (Some (username, password)));;
    await (EvQueuePut "websocket" (mkPayload password None));;
    result <- _get_websocket_auth_step;;
    if decide (result = NoActionRequired) then
      modify (set_auth_data None);;
      store_current_credentials;;
      _check_public_profile
    else if decide (result = EmailTwoFactorInputRequired) then
      ret (next_step_response TWO_FACTOR_MAIL TWO_FACTOR_MAIL_FINISHED)
    else if decide (result = PhoneTwoFactorInputRequired) then
      ret (next_step_response TWO_FACTOR_MOBILE TWO_FACTOR_MOBILE_FINISHED)
    else
      ret (next_step_response LOGIN_FAILED LOGIN_FINISHED).

(** [self._auth_data[1]]; [None] is not subscriptable. *)
Definition stored_password : M string :=
  w <- get_world;;
  match _auth_data w with
  | Some (_, password) => ret password
  | None => raise TypeError
  end.

Definition _handle_two_step (params : gmap string (list string))
    (fail : StartUri) (finish : EndUri) : M AuthReturn :=
  if negb (dict_has params "code")
  then ret (next_step_response fail finish)
  else
    codes <- subscript params "code";;
    two_factor <- first_item codes;;
    password <- stored_password;;
    await (EvQueuePut "websocket" (mkPayload password (Some two_factor)));;
    result <- _get_websocket_auth_step;;
    if decide (result <> NoActionRequired)
    then ret (next_step_response fail finish)
    else
      modify (set_auth_data None);;
      store_current_credentials;;
      current_authentication.

Definition _handle_two_step_mobile_finished (credentials : gmap string string)
  : M AuthReturn :=
  end_uri <- subscript credentials "end_uri";;
  let params := parse_qs lib (urlsplit_query lib end_uri) in
  _handle_two_step params TWO_FACTOR_MOBILE_FAILED TWO_FACTOR_MOBILE_FINISHED.

Definition _handle_two_step_email_finished (credentials : gmap string string)
  : M AuthReturn :=
  end_uri <- subscript credentials "end_uri";;
  let params := parse_qs lib (urlsplit_query lib end_uri) in
  if dict_has params "resend"
  then
    password <- stored_password;;
    await (EvQueuePut "websocket" (mkPayload password None));;
    _get_websocket_auth_step;;
    ret (next_step_response TWO_FACTOR_MAIL TWO_FACTOR_MAIL_FINISHED)
  else
    _handle_two_step params TWO_FACTOR_MAIL_FAILED TWO_FACTOR_MAIL_FINISHED.

Definition _handle_public_prompt_finished (credentials : gmap string string)
  : M AuthReturn :=
  end_uri <- subscript credentials "end_uri";;
  let params := dict_of_pairs (parse_qsl lib (urlsplit_query lib end_uri)) in
  user_wants_pp_fallback <- lift_result (strtobool (params !! "public_profile_fallback"));;
  if (user_wants_pp_fallback : bool)
  then _check_public_profile
  else current_authentication.

(** The arguments [step] and [cookies] of the source are never used. *)
Definition pass_login_credentials (credentials : gmap string string) : M AuthReturn :=
  end_uri <- subscript credentials "end_uri";;
  if str_in "login_finished" end_uri then _handle_login_finished credentials
  else if str_in "two_factor_mobile_finished" end_uri
  then _handle_two_step_mobile_finished credentials
  else if str_in "two_factor_mail_finished" end_uri
  then _handle_two_step_email_finished credentials
  else if str_in "public_prompt_finished" end_uri
  then _handle_public_prompt_finished credentials
  else ret PyNone.

Definition create_steam_run_task : M unit :=
  emit (EvCreateTask WebsocketRun);;
  modify (set_steam_run_task (Some WebsocketRun)).

Definition _authenticate_with_stored_credentials (stored_credentials : gmap string string)
  : M AuthReturn :=
  modify (with_shared (with_user_info_cache (from_dict lib stored_credentials)));;
  create_steam_run_task;;
  emit (EvCreateTask UserInfoInitializedWait);;
  await (EvWait [WebsocketRun; UserInfoInitializedWait] USER_INFO_CACHE_INITIALIZED_TIMEOUT);;
  done <- answer env_wait_done;;
  if bool_decide (UserInfoInitializedWait ∈ done) then
    store_current_credentials;;
    current_authentication
  else if bool_decide (WebsocketRun ∈ done) then
    (* the task is finished: awaiting it does not suspend; the [except]
       clause logs and raises again, the [else] clause is not covered
       by it *)
    try_except
      (emit (EvAwaitTask WebsocketRun);;
       o <- answer env_task_outcome;;
       raise_if o)
      (fun e => if is_Exception e then Some (raise e) else None);;
    raise (UnknownError "Unexcpeted, silent websocket close.")
  else
    _cancel_task WebsocketRun;;
    raise BackendTimeout.

Definition authenticate (stored_credentials : option (gmap string string)) : M AuthReturn :=
  match stored_credentials with
  | None =>
      create_steam_run_task;;
      ret (next_step_response LOGIN LOGIN_FINISHED)
  | Some stored_credentials => _authenticate_with_stored_credentials stored_credentials
  end.

(** *** Features *)

Definition single_purchase_game (id title : string) : Game :=
  mkGame id title [] (mkLicenseInfo SinglePurchase None).

(** One asynchronous iteration over a generator of the games cache: the
    entries it yields, and the exception that ends it, if any. *)
Definition iterate_games (which : GamesIter) : M (list App * option Exn) :=
  await (EvIterGames which);;
  answer env_iter_games.

Definition collect_owned_games : M (list Game) :=
  iteration <- iterate_games OwnedGames;;
  match iteration with
  | (_, Some e) => raise e
  | (apps, None) =>
      let owned_games := map (fun app => single_purchase_game (appid app) (title app)) apps in
      let owned_witcher_3_dlcs : gset string :=
        list_to_set (filter (fun id => id ∈ WITCHER_3_DLCS_APP_IDS lib) (map appid apps)) in
      if does_witcher_3_dlcs_set_resolve_to_GOTY lib owned_witcher_3_dlcs
      then ret (owned_games ++
                [single_purchase_game (WITCHER_3_GOTY_APP_ID lib) (WITCHER_3_GOTY_TITLE lib)])
      else ret owned_games
  end.

Definition get_owned_games : M (list Game) :=
  require_steam_id;;
  wait_ready GamesCacheName GAME_CACHE_IS_READY_TIMEOUT;;
  modify (with_shared (with_games_cache (fun g => mkGamesCache (added_games g) true)));;
  owned_games <- try_finally
    (try_except collect_owned_games
       (fun e => match e with
                 | KeyError _ | ValueError => Some (raise UnknownBackendResponse)
                 | _ => None
                 end))
    (modify (set_owned_games_parsed true));;
  persist_games_cache;;
  ret owned_games.

Definition get_subscriptions : M (list Subscription) :=
  w <- get_world;;
  (if negb (_owned_games_parsed w) then wait_ready GamesCacheName 90 else ret tt);;
  iteration <- iterate_games SharedGames;;
  any_shared_game <-
    match iteration with
    | (_ :: _, _) => ret true
    | ([], None) => ret false
    | ([], Some e) => raise e
    end;;
  ret [mkSubscription "Steam Family Sharing" any_shared_game None AUTOMATIC].

Definition prepare_achievements_context (game_ids : list string) : M unit :=
  require_steam_id;;
  w <- get_world;;
  (if negb (stats_import_in_progress (_stats_cache (shared w)))
   then request (EvRefreshGameStats game_ids)
   else ret tt);;
  wait_ready StatsCacheName (10 * 60).

Definition prepare_game_times_context (game_ids : list string) : M unit :=
  require_steam_id;;
  w <- get_world;;
  (if negb (times_import_in_progress (_times_cache (shared w)))
   then request EvRefreshGameTimes
   else ret tt);;
  wait_ready TimesCacheName (10 * 60).

(** The argument [context] of the source is never used. *)
Definition get_game_time (game_id : string) : M GameTime :=
  w <- get_world;;
  let cache := times (_times_cache (shared w)) in
  let time_played := default ∅ (cache !! game_id) !! "time_played" in
  let last_played := default ∅ (cache !! game_id) !! "last_played" in
  let last_played :=
    if decide (last_played = Some GAME_DOES_NOT_SUPPORT_LAST_PLAYED_VALUE)
    then None else last_played in
  ret (mkGameTime game_id time_played last_played).

Definition prepare_game_library_settings_context (game_ids : list string)
  : M (list (string * list Z)) :=
  require_steam_id;;
  await EvRetrieveCollections;;
  r <- answer env_collections;;
  lift_result r.

Definition get_friends : M (list UserInfo) :=
  require_steam_id;;
  await EvGetFriends;;
  r <- answer env_friends;;
  friends_ids <- lift_result r;;
  await (EvGetFriendsInfo friends_ids);;
  r <- answer env_friends_info;;
  friends_infos <- lift_result r;;
  await EvGetFriendsNicknames;;
  r <- answer env_friends_nicknames;;
  friends_nicknames <- lift_result r;;
  lift_result (translate_friends friends_infos friends_nicknames).

Definition prepare_user_presence_context (user_ids : list PyKey)
  : M (list (PyKey * ProtoUserInfo)) :=
  await (EvGetFriendsInfo user_ids);;
  r <- answer env_friends_info;;
  lift_result r.

(** *** Calls and states along a run *)

(** The call the profile-visibility check makes from [w], and the backend
    once that call has been answered. *)
Definition check_event (w : World) : Event := EvCheckIsPublic (steam_id (user_info w)).

Definition after_check (w : World) (tr : Trace) : World :=
  with_shared (protocol_writes env (tr ++ [check_event w])) w.

(** One round on the queues: [item] is put on the outbound queue, then
    the inbound queue is waited on.  The calls made, the handshake result
    the backend reads, and the backend afterwards: only the protocol
    session has written, once per suspension. *)
Definition submission_trace (item : Payload) (tr : Trace) : Trace :=
  tr ++ [EvQueuePut "websocket" item; EvQueueGet "plugin" 20].

Definition submission_result (item : Payload) (tr : Trace) : UserActionRequired :=
  match env_queue_get env (submission_trace item tr) with
  | Some m => auth_result m
  | None => NoActionRequired
  end.

Definition after_submission (item : Payload) (w : World) (tr : Trace) : World :=
  with_shared (protocol_writes env (submission_trace item tr))
    (with_shared (protocol_writes env (tr ++ [EvQueuePut "websocket" item])) w).

(** The backend once a login form has been read: username captured in the
    identity record, both credentials pending. *)
Definition captured (username password : string) (w : World) : World :=
  set_auth_data (Some (username, password))
    (with_shared (with_user_info_cache (set_account_username username)) w).

(** Resuming from stored credentials: the backend and the calls made when
    [asyncio.wait] returns. *)
Definition resume_trace (tr : Trace) : Trace :=
  tr ++ [EvCreateTask WebsocketRun; EvCreateTask UserInfoInitializedWait;
         EvWait [WebsocketRun; UserInfoInitializedWait] 30].

Definition resumed (stored_credentials : gmap string string) (w : World) (tr : Trace)
  : World :=
  with_shared (protocol_writes env (resume_trace tr))
    (set_steam_run_task (Some WebsocketRun)
       (with_shared (with_user_info_cache (from_dict lib stored_credentials)) w)).

End Backend.

(** A coroutine of the authentication controller that, when it returns,
    hands back an authentication or a next step. *)
Definition returns_a_result (m : M AuthReturn) : Prop :=
  forall (w : World) (tr : Trace), (m w tr).1.1 <> Ok PyNone.

(** *** Calls made while forwarding new games *)

(** The host call that forwards one catalog entry. *)
Definition forwarded (game : App) : Event :=
  EvAddGame (mkGame (appid game) (title game) [] (mkLicenseInfo SinglePurchase None)).

Definition is_forwarded (ev : Event) : bool :=
  match ev with
  | EvAddGame _ => true
  | _ => false
  end.

(** Entries forwarded, and pauses taken, in a sequence of calls. *)
Fixpoint count_forwarded (evs : Trace) : nat :=
  match evs with
  | [] => 0
  | ev :: evs' => (if is_forwarded ev then 1 else 0) + count_forwarded evs'
  end.

Fixpoint count_pauses (evs : Trace) : nat :=
  match evs with
  | [] => 0
  | EvSleep _ :: evs' => S (count_pauses evs')
  | _ :: evs' => count_pauses evs'
  end.

(** The calls of the forwarding loop started at index [i]; they do not
    depend on the environment. *)
Fixpoint forwarding_calls (i : nat) (new_games : list App) : Trace :=
  match new_games with
  | [] => []
  | game :: rest =>
      forwarded game :: (if (i mod 50 =? 49)%nat then [EvSleep 5] else [])
        ++ forwarding_calls (S i) rest
  end.

(** ** Stand-ins for the collaborators, for running the backend *)

(** The part of [s] after the first occurrence of [c]; empty if there is
    none. *)
Fixpoint after_char (c : ascii) (s : string) : string :=
  match s with
  | EmptyString => EmptyString
  | String c' s' => if Ascii.eqb c c' then s' else after_char c s'
  end.

(** The part of [s] before the first occurrence of [c]; all of [s] if
    there is none. *)
Fixpoint before_char (c : ascii) (s : string) : string :=
  match s with
  | EmptyString => EmptyString
  | String c' s' => if Ascii.eqb c c' then EmptyString else String c' (before_char c s')
  end.

Fixpoint split_fields (fuel : nat) (s : string) : list string :=
  match fuel with
  | O => []
  | S fuel' =>
      if String.eqb s "" then []
      else before_char "&" s :: split_fields fuel' (after_char "&" s)
  end.

(** A query parser without percent-decoding: [k=v] fields separated by
    [&], fields with a blank value dropped. *)
Definition simple_parse_qsl (query : string) : list (string * string) :=
  omap (fun field =>
          let v := after_char "=" field in
          if String.eqb v "" then None else Some (before_char "=" field, v))
       (split_fields (S (String.length query)) query).

Definition simple_parse_qs (query : string) : gmap string (list string) :=
  foldl (fun d kv => <[kv.1 := default [] (d !! kv.1) ++ [kv.2]]> d) ∅
        (simple_parse_qsl query).

Definition simple_urlsplit_query (uri : string) : string :=
  before_char "#" (after_char "?" uri).

Definition simple_to_dict (c : UserInfoCache) : gmap string string :=
  {[ "steam_id" := from_option str_Z "" (steam_id c);
     "persona_name" := default "" (persona_name c);
     "account_username" := default "" (account_username c) ]}.

Definition simple_from_dict (d : gmap string string) (c : UserInfoCache) : UserInfoCache :=
  mkUserInfoCache (steam_id c) (d !! "persona_name") (d !! "account_username")
                  (changed c) (initialized c).

Definition simple_lib : Library :=
  mkLibrary simple_urlsplit_query simple_parse_qs simple_parse_qsl
            simple_to_dict simple_from_dict
            (fun g => String.concat "," (map appid (added_games g)))
            {[ "378649"; "378648" ]} "499450" "The Witcher 3: Wild Hunt - GOTY"
            (fun owned => bool_decide (owned = {[ "378649"; "378648" ]})).

Definition empty_user_info_cache : UserInfoCache :=
  mkUserInfoCache None None None false false.

Definition fresh_shared : Shared :=
  mkShared empty_user_info_cache (mkGamesCache [] false) (mkStatsCache false)
           (mkTimesCache false ∅) ∅ false.

(** A backend just constructed: nobody is logged in. *)
Definition fresh_world : World := mkWorld fresh_shared None false None.

(** The protocol session delivers the identity of the account. *)
Definition deliver_identity (s : Shared) : Shared :=
  with_user_info_cache
    (fun c => mkUserInfoCache (Some 76561198000000001) (Some "gordon")
                              (account_username c) true true) s.

(** A backend whose identity has been delivered, with a login in progress. *)
Definition logged_in_world (pending : option (string * string)) : World :=
  mkWorld (deliver_identity fresh_shared) pending false (Some WebsocketRun).

(** An environment scripted by constants: the protocol session delivers
    the identity while the backend waits ([on_wait]), the queue yields
    [msg], the profile check ends with [check], [asyncio.wait] reports
    [done], an awaited task ends with [outcome]. *)
Definition scripted_env (on_wait : bool) (msg : option UserActionRequired)
    (check : option Exn) (done : list Task) (outcome : option Exn) : Env :=
  mkEnv
    (fun tr s =>
       match last tr with
       | Some (EvQueueGet _ _) | Some (EvWait _ _) =>
           if on_wait then deliver_identity s else s
       | _ => s
       end)
    (fun _ => mkPluginMsg <$> msg)
    (fun _ => check)
    (fun _ => done)
    (fun _ => outcome)
    (fun _ => None)
    (fun _ => ([], None))
    (fun _ => None)
    (fun _ => Ok [])
    (fun _ => Ok [])
    (fun _ => Ok [])
    (fun _ => Ok []).

Definition login_uri : string :=
  "https://steamcommunity.com/login_finished?username=gordon&password=crowbar".

Definition credentials_of (uri : string) : gmap string string :=
  {[ "end_uri" := uri ]}.

Fixpoint numbered_apps (n : nat) : list App :=
  match n with
  | O => []
  | S n' => numbered_apps n' ++ [mkApp (str_Z (Z.of_nat n)) "game"]
  end.

Definition stored_credentials_example : gmap string string :=
  {[ "persona_name" := "gordon"; "account_username" := "gordon" ]}.

Definition two_factor_mail_uri : string :=
  "https://steamcommunity.com/two_factor_mail_finished?code=12345".

Definition mail_resend_uri : string :=
  "https://steamcommunity.com/two_factor_mail_finished?resend=true".

Definition mobile_resend_uri : string :=
  "https://steamcommunity.com/two_factor_mobile_finished?resend=true".

Definition unrecognized_uri : string :=
  "https://steamcommunity.com/openid/landing".

(** The same world with [n] numbered entries waiting to be forwarded. *)
Definition world_with_new_games (n : nat) : World :=
  with_shared (with_games_cache (fun g => mkGamesCache (numbered_apps n) (add_game_lever g)))
              (logged_in_world None).

(** ** Further features of the backend *)


Record Achievement : Type := mkAchievement {
  unlock_time : Z;
  achievement_id : option string;
  achievement_name : string
}.

Record GameLibrarySettings : Type := mkGameLibrarySettings {
  gls_game_id : string;
  tags : option (list string);
  hidden : option bool
}.

(** Modelled from the spec: an achievement unlock record of the Statistics
    Cache, with the two keys the backend reads, and the payload kept for
    one entitlement, whose ["achievements"] key may be absent. *)
Record UnlockRecord : Type := mkUnlockRecord {
  stat_name : string;
  stat_unlock_time : Z
}.

Record GameStats : Type := mkGameStats {
  achievements : option (list UnlockRecord)
}.

Section Features.

Variable env : Env.

(** [str.strip], [int] on a string ([None]: [ValueError]), the lookup
    [StatsCache.get] and the coroutine [presence_from_user_info], none of
    which is part of the sources. *)
Variable strip : string -> string.
Variable py_int : string -> option Z.
Variable stats_cache_get : string -> option GameStats.
Variable UserPresence : Type.
Variable presence_from_user_info : ProtoUserInfo -> M UserPresence.


(** One turn of the loop of [get_unlocked_achievements].  The host's
    [Achievement] asserts, when it is built, that an id or a name is
    present: built without an id and with an empty name, it raises
    [AssertionError]. *)
Definition unlocked_achievement (achievement : UnlockRecord) : Result Achievement :=
  let achievement_name := strip (stat_name achievement) in
  let achievement_name :=
    if String.eqb achievement_name "" then stat_name achievement else achievement_name in
  if String.eqb achievement_name ""
  then Raise (OtherException "AssertionError")
  else Ok (mkAchievement (stat_unlock_time achievement) None achievement_name).

Fixpoint unlocked_achievements (unlocked : list UnlockRecord) : Result (list Achievement) :=
  match unlocked with
  | [] => Ok []
  | achievement :: rest =>
      match unlocked_achievement achievement with
      | Raise e => Raise e
      | Ok achievement =>
          match unlocked_achievements rest with
          | Ok achievements => Ok (achievement :: achievements)
          | Raise e => Raise e
          end
      end
  end.

(** The argument [context] of the source is never used. *)
Definition get_unlocked_achievements (game_id : string) : M (list Achievement) :=
  match stats_cache_get game_id with
  | Some game_stats =>
      match achievements game_stats with
      | Some unlocked => lift_result (unlocked_achievements unlocked)
      | None => ret []
      end
  | None => ret []
  end.

(** The loop of [get_game_library_settings] over the collections, from
    the tags and the flag gathered so far. *)
Fixpoint scan_collections (game_id : string) (context : list (string * list Z))
    (game_in_collections : list string) (hidden : bool) : Result (list string * bool) :=
  match context with
  | [] => Ok (game_in_collections, hidden)
  | (collection_name, members) :: rest =>
      match py_int game_id with
      | None => Raise ValueError
      | Some id =>
          if bool_decide (id ∈ members) then
            if String.eqb (str_lower collection_name) "hidden"
            then scan_collections game_id rest game_in_collections true
            else scan_collections game_id rest (game_in_collections ++ [collection_name]) hidden
          else scan_collections game_id rest game_in_collections hidden
      end
  end.

(** [context] is [None] or a dictionary from collection name to the ids
    it holds; both [None] and the empty dictionary are falsy. *)
Definition get_game_library_settings (game_id : string)
    (context : option (list (string * list Z))) : M GameLibrarySettings :=
  match context with
  | None | Some [] => ret (mkGameLibrarySettings game_id None None)
  | Some context =>
      found <- lift_result (scan_collections game_id context [] false);;
      ret (mkGameLibrarySettings game_id (Some found.1) (Some found.2))
  end.

Definition get_user_presence (user_id : string) (context : list (PyKey * ProtoUserInfo))
  : M UserPresence :=
  match dict_get context (KStr user_id) with
  | None =>
      raise (UnknownError
               ("User " ++ user_id ++
                " not in friend list (plugin only supports fetching presence for friends)")%string)
  | Some user_info => presence_from_user_info user_info
  end.

(** *** States along a run of [get_owned_games] *)

(** The backend once the wait on the games cache has been answered, and
    once the iteration over the owned games has been answered. *)
Definition games_wait_trace (tr : Trace) : Trace :=
  tr ++ [EvWaitReady GamesCacheName 90].

Definition after_games_wait (w : World) (tr : Trace) : World :=
  with_shared (protocol_writes env (games_wait_trace tr)) w.

Definition games_iter_trace (tr : Trace) : Trace :=
  tr ++ [EvWaitReady GamesCacheName 90; EvIterGames OwnedGames].

Definition after_games_iter (w : World) (tr : Trace) : World :=
  with_shared (protocol_writes env (games_iter_trace tr))
    (with_shared (with_games_cache (fun g => mkGamesCache (added_games g) true))
       (after_games_wait w tr)).

End Features.

(** The entries of the persistent cache and its dirty flag after the
    backend has stored a snapshot of the games cache. *)
Definition persisted (lib : Library) (w : World) : World :=
  with_shared (set_storage_modified true)
    (with_shared (with_persistent_cache
                    (<["games" := games_cache_dump lib (_games_cache (shared w))]>)) w).

Definition is_parse_error (e : Exn) : bool :=
  match e with
  | KeyError _ | ValueError => true
  | _ => false
  end.


(** A collection of the library settings context that holds the game
    with number [id], and one that is called "hidden" in any casing. *)
Definition holds (id : Z) (collection : string * list Z) : bool :=
  bool_decide (id ∈ collection.2).

Definition is_hidden_collection (collection : string * list Z) : bool :=
  String.eqb (str_lower collection.1) "hidden".

(** *** Stand-ins for the further features *)

(** An environment for the feature queries, scripted by constants: the
    answers to a wait on a cache, to an iteration over the games cache,
    to a refresh request and to the three requests about friends; the
    protocol session writes nothing. *)
Definition feature_env (ready : option Exn) (iteration : list App * option Exn)
    (refreshed : option Exn) (friends : Result (list PyKey))
    (infos : Result (list (PyKey * ProtoUserInfo)))
    (nicknames : Result (list (PyKey * string))) : Env :=
  mkEnv (fun _ s => s) (fun _ => None) (fun _ => None) (fun _ => []) (fun _ => None)
        (fun _ => ready) (fun _ => iteration) (fun _ => refreshed) (fun _ => Ok [])
        (fun _ => friends) (fun _ => infos) (fun _ => nicknames).

(** A handshake in two rounds: the first submission is answered with
    "e-mail code required", every later one is accepted. *)
Definition two_round_env : Env :=
  mkEnv (fun _ s => s)
        (fun tr => Some (mkPluginMsg (if (length tr <=? 2)%nat
                                      then EmailTwoFactorInputRequired
                                      else NoActionRequired)))
        (fun _ => None) (fun _ => []) (fun _ => None) (fun _ => None)
        (fun _ => ([], None)) (fun _ => None) (fun _ => Ok []) (fun _ => Ok [])
        (fun _ => Ok []) (fun _ => Ok []).

Definition prompt_uri (answer : string) : string :=
  ("https://steamcommunity.com/public_prompt_finished?public_profile_fallback=" ++ answer)%string.

Definition half_life : App := mkApp "70" "Half-Life".
Definition portal : App := mkApp "400" "Portal".

Definition alyx : ProtoUserInfo := mkProtoUserInfo "alyx" [x00; x01; xfe]%byte.
Definition barney : ProtoUserInfo := mkProtoUserInfo "barney" [x0a; x0b; x0c]%byte.

(** Leading and trailing spaces removed. *)
Fixpoint strip_leading (s : string) : string :=
  match s with
  | String " " s' => strip_leading s'
  | _ => s
  end.

Fixpoint string_rev (s : string) : string :=
  match s with
  | EmptyString => EmptyString
  | String c s' => (string_rev s' ++ String c EmptyString)%string
  end.

Definition simple_strip (s : string) : string :=
  string_rev (strip_leading (string_rev (strip_leading s))).

(** Decimal numerals only. *)
Definition simple_int (s : string) : option Z :=
  if String.eqb s "" then None else Z.of_int <$> NilEmpty.int_of_string s.

Definition simple_stats (game_id : string) : option GameStats :=
  if String.eqb game_id "70"
  then Some (mkGameStats (Some [mkUnlockRecord "Rocket Man " 1600000000;
                                mkUnlockRecord "  " 1600000100]))
  else if String.eqb game_id "400"
  then Some (mkGameStats (Some [mkUnlockRecord "Cake" 1600000200;
                                mkUnlockRecord "" 1600000300;
                                mkUnlockRecord "Lie" 1600000400]))
  else None.

Definition simple_collections : list (string * list Z) :=
  [("Favourites", [70; 400]); ("Hidden", [70]); ("Puzzle", [400])].


(** A logged-in backend whose statistics import is under way. *)
Definition world_importing_stats : World :=
  with_shared (fun s => mkShared (_user_info_cache s) (_games_cache s) (mkStatsCache true)
                          (_times_cache s) (_persistent_cache s)
                          (_persistent_storage_state_modified s))
              (logged_in_world None).


(** ** Properties *)

Ltac unfold_monad :=
  unfold raise_if, subscript, first_item in *;
  unfold bind, ret, raise, lift_result, get_world, modify, emit, await, answer,
    try_except, try_finally in *.

Ltac mod_lia := zify; Z.div_mod_to_equations; lia.

Section BackendFacts.

Variable lib : Library.
Variable env : Env.

(** *** The bounded wait for a handshake result *)

(** The wait is always the same call, and it suspends exactly once. *)
Lemma auth_step_trace (w : World) (tr : Trace) :
  exists r,
    _get_websocket_auth_step env w tr =
      (Ok r, with_shared (protocol_writes env (tr ++ [EvQueueGet "plugin" 20])) w,
       tr ++ [EvQueueGet "plugin" 20]).
Proof.
  unfold _get_websocket_auth_step. unfold_monad.
  destruct (env_queue_get env (tr ++ [EvQueueGet "plugin" 20])) as [m|]; eauto.
Qed.

Lemma auth_step_result (w : World) (tr : Trace) :
  (_get_websocket_auth_step env w tr).1.1 =
    Ok (match env_queue_get env (tr ++ [EvQueueGet "plugin" 20]) with
        | Some m => auth_result m
        | None => NoActionRequired
        end).
Proof.
  unfold _get_websocket_auth_step. unfold_monad.
  destruct (env_queue_get env (tr ++ [EvQueueGet "plugin" 20])) as [m|]; reflexivity.
Qed.

(** C3: when the 20-unit wait on the inbound ["plugin"] queue elapses, the
    step is [NoActionRequired]; the call returns a value and raises
    nothing. *)
Theorem auth_step_timeout_is_no_action (w : World) (tr : Trace) :
  env_queue_get env (tr ++ [EvQueueGet "plugin" 20]) = None ->
  _get_websocket_auth_step env w tr =
    (Ok NoActionRequired,
     with_shared (protocol_writes env (tr ++ [EvQueueGet "plugin" 20])) w,
     tr ++ [EvQueueGet "plugin" 20]).
Proof.
  intros Htimeout.
  destruct (auth_step_trace w tr) as [r Hrun].
  pose proof (auth_step_result w tr) as Hres.
  rewrite Hrun in Hres. simpl in Hres. rewrite Htimeout in Hres.
  injection Hres as ->. exact Hrun.
Qed.

(** *** The profile-visibility check *)

Lemma check_public_profile_run (w : World) (tr : Trace) :
  _check_public_profile env w tr =
    (match env_check_is_public env (tr ++ [check_event w]) with
     | None =>
         Ok (Authentication (steam_id (user_info (after_check env w tr)))
                            (persona_name (user_info (after_check env w tr))))
     | Some ProfileIsNotPublic =>
         Ok (NextStep PP_PROMPT__PROFILE_IS_NOT_PUBLIC PUBLIC_PROMPT_FINISHED)
     | Some NotPublicGameDetailsOrUserHasNoGames =>
         Ok (NextStep PP_PROMPT__NOT_PUBLIC_GAME_DETAILS_OR_USER_HAS_NO_GAMES
                      PUBLIC_PROMPT_FINISHED)
     | Some ProfileDoesNotExist | Some ValueError => Raise UnknownBackendResponse
     | Some CancelledError => Raise CancelledError
     | Some _ => Ok (NextStep PP_PROMPT__UNKNOWN_ERROR PUBLIC_PROMPT_FINISHED)
     end,
     after_check env w tr, tr ++ [check_event w]).
Proof.
  unfold _check_public_profile, current_authentication, after_check, check_event.
  unfold_monad.
  destruct (env_check_is_public env _) as [[]|]; reflexivity.
Qed.

(** C4: the outcomes of the profile-visibility check.  "Not public" and
    "no public game details or no games" each give a step that expects the
    public-prompt completion, with different prompts; "does not exist" and
    a malformed id raise [UnknownBackendResponse]; any other exception
    gives the "unknown error" prompt; a check that returns gives the
    authentication. *)
Theorem check_public_profile_outcomes (w : World) (tr : Trace) :
  let o := env_check_is_public env (tr ++ [check_event w]) in
  let run := _check_public_profile env w tr in
  (o = Some ProfileIsNotPublic ->
   run = (Ok (NextStep PP_PROMPT__PROFILE_IS_NOT_PUBLIC PUBLIC_PROMPT_FINISHED),
          after_check env w tr, tr ++ [check_event w])) /\
  (o = Some NotPublicGameDetailsOrUserHasNoGames ->
   run = (Ok (NextStep PP_PROMPT__NOT_PUBLIC_GAME_DETAILS_OR_USER_HAS_NO_GAMES
                       PUBLIC_PROMPT_FINISHED),
          after_check env w tr, tr ++ [check_event w])) /\
  PP_PROMPT__PROFILE_IS_NOT_PUBLIC
    <> PP_PROMPT__NOT_PUBLIC_GAME_DETAILS_OR_USER_HAS_NO_GAMES /\
  (o = Some ProfileDoesNotExist \/ o = Some ValueError ->
   run = (Raise UnknownBackendResponse, after_check env w tr, tr ++ [check_event w])) /\
  (forall e, o = Some e ->
     e <> ProfileIsNotPublic -> e <> NotPublicGameDetailsOrUserHasNoGames ->
     e <> ProfileDoesNotExist -> e <> ValueError -> is_Exception e = true ->
   run = (Ok (NextStep PP_PROMPT__UNKNOWN_ERROR PUBLIC_PROMPT_FINISHED),
          after_check env w tr, tr ++ [check_event w])) /\
  (o = None ->
   run = (Ok (Authentication (steam_id (user_info (after_check env w tr)))
                             (persona_name (user_info (after_check env w tr)))),
          after_check env w tr, tr ++ [check_event w])).
Proof.
  intros o run. subst o run. rewrite check_public_profile_run.
  repeat split.
  - intros ->. reflexivity.
  - intros ->. reflexivity.
  - discriminate.
  - intros [-> | ->]; reflexivity.
  - intros e -> H1 H2 H3 H4 H5. destruct e; try reflexivity; try congruence; discriminate.
  - intros ->. reflexivity.
Qed.

(** *** Resuming from stored credentials *)

(** What awaiting the cancelled run loop does to the resume. *)
Lemma cancel_task_run (task : Task) (w : World) (tr : Trace) :
  let tr' := tr ++ [EvCancelTask task; EvAwaitTask task] in
  _cancel_task env task w tr =
    (match env_task_outcome env tr' with
     | Some CancelledError | None => Ok tt
     | Some e => Raise e
     end,
     with_shared (protocol_writes env tr') w, tr').
Proof.
  unfold _cancel_task. unfold_monad. simpl. rewrite <- !app_assoc. simpl.
  destruct (env_task_outcome env _) as [[]|]; reflexivity.
Qed.

(** C2 (amended): the race of a resume from stored credentials, bounded
    by 30.  Identity ready: the credentials are stored and the
    authentication is returned.  Run loop ended with an error: that error
    is raised.  Run loop ended without one: [UnknownError].  Neither: the
    run loop is cancelled and awaited; if it ends with its cancellation,
    which is swallowed, or returns, [BackendTimeout] is raised; if it
    ends with any other error, that error is raised instead. *)
Theorem resume_race_outcomes (stored_credentials : gmap string string)
    (w : World) (tr : Trace) :
  let run := authenticate lib env (Some stored_credentials) w tr in
  let w1 := resumed lib env stored_credentials w tr in
  let tr1 := resume_trace tr in
  let done := env_wait_done env tr1 in
  (UserInfoInitializedWait ∈ done ->
   run = (Ok (Authentication (steam_id (user_info w1)) (persona_name (user_info w1))),
          w1, tr1 ++ [EvStoreCredentials (to_dict lib (user_info w1))])) /\
  (UserInfoInitializedWait ∉ done -> WebsocketRun ∈ done ->
   forall e, env_task_outcome env (tr1 ++ [EvAwaitTask WebsocketRun]) = Some e ->
   run = (Raise e, w1, tr1 ++ [EvAwaitTask WebsocketRun])) /\
  (UserInfoInitializedWait ∉ done -> WebsocketRun ∈ done ->
   env_task_outcome env (tr1 ++ [EvAwaitTask WebsocketRun]) = None ->
   run = (Raise (UnknownError "Unexcpeted, silent websocket close."),
          w1, tr1 ++ [EvAwaitTask WebsocketRun])) /\
  (UserInfoInitializedWait ∉ done -> WebsocketRun ∉ done ->
   let tr2 := tr1 ++ [EvCancelTask WebsocketRun; EvAwaitTask WebsocketRun] in
   env_task_outcome env tr2 = Some CancelledError \/ env_task_outcome env tr2 = None ->
   run = (Raise BackendTimeout, with_shared (protocol_writes env tr2) w1, tr2)) /\
  (UserInfoInitializedWait ∉ done -> WebsocketRun ∉ done ->
   let tr2 := tr1 ++ [EvCancelTask WebsocketRun; EvAwaitTask WebsocketRun] in
   forall e, env_task_outcome env tr2 = Some e -> e <> CancelledError ->
   run = (Raise e, with_shared (protocol_writes env tr2) w1, tr2)).
Proof.
  intros run w1 tr1 done. subst run w1 tr1. simpl.
  unfold _authenticate_with_stored_credentials, create_steam_run_task,
    store_current_credentials, current_authentication, _cancel_task, resumed, resume_trace.
  unfold USER_INFO_CACHE_INITIALIZED_TIMEOUT. unfold_monad. simpl.
  rewrite <- !app_assoc. simpl. fold done.
  repeat split.
  - intros Hin. rewrite bool_decide_eq_true_2 by assumption.
    rewrite <- !app_assoc. reflexivity.
  - intros Hnin Hin e He. rewrite bool_decide_eq_false_2 by assumption.
    rewrite bool_decide_eq_true_2 by assumption.
    rewrite <- !app_assoc in *. simpl in *. rewrite He.
    destruct (is_Exception e); reflexivity.
  - intros Hnin Hin He. rewrite bool_decide_eq_false_2 by assumption.
    rewrite bool_decide_eq_true_2 by assumption.
    rewrite <- !app_assoc in *. simpl in *. rewrite He. reflexivity.
  - intros Hnin1 Hnin2 He. rewrite !bool_decide_eq_false_2 by assumption.
    rewrite <- !app_assoc in *. simpl in *.
    destruct He as [-> | ->]; reflexivity.
  - intros Hnin1 Hnin2 e He Hne. rewrite !bool_decide_eq_false_2 by assumption.
    rewrite <- !app_assoc in *. simpl in *. rewrite He.
    destruct e; try reflexivity. congruence.
Qed.

(** *** The login form and the two-factor forms *)

(** Two calls in a row, the second one feeding a continuation. *)
Lemma bind_seq_run {A B : Type} (a : M unit) (b : M A) (k : A -> M B)
    (w w' : World) (tr tr' : Trace) (r : A) :
  (a;; b) w tr = (Ok r, w', tr') ->
  (a;; x <- b;; k x) w tr = k r w' tr'.
Proof.
  unfold bind. destruct (a w tr) as [[[u|e] w0] tr0]; [|discriminate].
  destruct (b w0 tr0) as [[[x|e] w1] tr1]; [|discriminate].
  intros [= -> -> ->]. reflexivity.
Qed.

(** One round on the queues never raises. *)
Lemma submission_run (item : Payload) (w : World) (tr : Trace) :
  (await env (EvQueuePut "websocket" item);; _get_websocket_auth_step env) w tr =
    (Ok (submission_result env item tr), after_submission env item w tr,
     submission_trace item tr).
Proof.
  unfold _get_websocket_auth_step, submission_result, after_submission, submission_trace.
  unfold_monad. rewrite <- !app_assoc. simpl.
  destruct (env_queue_get env _) as [m|]; reflexivity.
Qed.

(** The login handler, once the form carries both fields. *)
Lemma login_finished_run (credentials : gmap string string) (end_uri : string)
    (username password : string) (usernames passwords : list string)
    (w : World) (tr : Trace) :
  credentials !! "end_uri" = Some end_uri ->
  parse_qs lib (urlsplit_query lib end_uri) !! "username" = Some (username :: usernames) ->
  parse_qs lib (urlsplit_query lib end_uri) !! "password" = Some (password :: passwords) ->
  let item := mkPayload password None in
  let w1 := after_submission env item (captured username password w) tr in
  let tr1 := submission_trace item tr in
  _handle_login_finished lib env credentials w tr =
    match submission_result env item tr with
    | NoActionRequired =>
        _check_public_profile env (set_auth_data None w1)
          (tr1 ++ [EvStoreCredentials (to_dict lib (user_info w1))])
    | EmailTwoFactorInputRequired =>
        (Ok (NextStep TWO_FACTOR_MAIL TWO_FACTOR_MAIL_FINISHED), w1, tr1)
    | PhoneTwoFactorInputRequired =>
        (Ok (NextStep TWO_FACTOR_MOBILE TWO_FACTOR_MOBILE_FINISHED), w1, tr1)
    | InvalidAuthData => (Ok (NextStep LOGIN_FAILED LOGIN_FINISHED), w1, tr1)
    end.
Proof.
  intros Huri Hu Hp item w1 tr1.
  unfold _handle_login_finished.
  unfold bind at 1. unfold subscript at 1. rewrite Huri. unfold ret at 1.
  unfold dict_has. rewrite Hu, Hp. cbn [negb orb].
  unfold bind at 1. unfold subscript at 1. rewrite Hu. unfold ret at 1.
  unfold bind at 1. unfold first_item at 1. unfold ret at 1.
  unfold bind at 1. unfold subscript at 1. rewrite Hp. unfold ret at 1.
  unfold bind at 1. unfold first_item at 1. unfold ret at 1.
  unfold bind at 1. unfold modify at 1.
  unfold bind at 1. unfold modify at 1.
  rewrite (bind_seq_run _ _ _ _ _ _ _ _ (submission_run item _ tr)).
  fold (captured username password w). fold w1 tr1.
  destruct (submission_result env item tr); simpl.
  - unfold store_current_credentials. unfold_monad. reflexivity.
  - reflexivity.
  - reflexivity.
  - reflexivity.
Qed.

(** The two-factor handler, once the form carries a code and a password
    is pending. *)
Lemma two_step_run (params : gmap string (list string)) (code : string)
    (codes : list string) (fail : StartUri) (finish : EndUri)
    (u p : string) (w : World) (tr : Trace) :
  params !! "code" = Some (code :: codes) ->
  _auth_data w = Some (u, p) ->
  let item := mkPayload p (Some code) in
  let w1 := after_submission env item w tr in
  let tr1 := submission_trace item tr in
  _handle_two_step lib env params fail finish w tr =
    match submission_result env item tr with
    | NoActionRequired =>
        (Ok (Authentication (steam_id (user_info w1)) (persona_name (user_info w1))),
         set_auth_data None w1,
         tr1 ++ [EvStoreCredentials (to_dict lib (user_info w1))])
    | _ => (Ok (NextStep fail finish), w1, tr1)
    end.
Proof.
  intros Hcode Hauth item w1 tr1.
  unfold _handle_two_step, dict_has. rewrite Hcode. cbn [negb].
  unfold bind at 1. unfold subscript at 1. rewrite Hcode. unfold ret at 1.
  unfold bind at 1. unfold first_item at 1. unfold ret at 1.
  unfold bind at 1. unfold stored_password at 1.
  unfold bind at 1. unfold get_world at 1. rewrite Hauth. unfold ret at 1.
  rewrite (bind_seq_run _ _ _ _ _ _ _ _ (submission_run item w tr)).
  fold w1 tr1.
  destruct (submission_result env item tr); reflexivity.
Qed.

(** C5: a login form carrying a username and a password, whose first
    submission yields [NoActionRequired] and whose profile check returns,
    ends in the authentication with the account id and display name; the
    username is captured in the identity record and the backend never
    writes it again; the pending credentials are cleared before the
    profile check starts. *)
Theorem login_no_action_public_profile (credentials : gmap string string)
    (end_uri username password : string) (usernames passwords : list string)
    (w : World) (tr : Trace) :
  credentials !! "end_uri" = Some end_uri ->
  str_in "login_finished" end_uri = true ->
  parse_qs lib (urlsplit_query lib end_uri) !! "username" = Some (username :: usernames) ->
  parse_qs lib (urlsplit_query lib end_uri) !! "password" = Some (password :: passwords) ->
  let item := mkPayload password None in
  let w1 := set_auth_data None (after_submission env item (captured username password w) tr) in
  let tr1 := submission_trace item tr ++ [EvStoreCredentials (to_dict lib (user_info w1))] in
  let w2 := after_check env w1 tr1 in
  submission_result env item tr = NoActionRequired ->
  env_check_is_public env (tr1 ++ [check_event w1]) = None ->
  pass_login_credentials lib env credentials w tr =
    (Ok (Authentication (steam_id (user_info w2)) (persona_name (user_info w2))),
     w2, tr1 ++ [check_event w1]) /\
  account_username (user_info (captured username password w)) = Some username /\
  ((forall t s, account_username (_user_info_cache (protocol_writes env t s)) =
                account_username (_user_info_cache s)) ->
   account_username (user_info w2) = Some username) /\
  _auth_data w2 = None /\
  _auth_data w1 = None /\
  pass_login_credentials lib env credentials w tr = _check_public_profile env w1 tr1.
Proof.
  intros Huri Hin Hu Hp item w1 tr1 w2 Hres Hcheck.
  assert (Hrun : pass_login_credentials lib env credentials w tr =
                 _check_public_profile env w1 tr1).
  { unfold pass_login_credentials.
    unfold bind at 1. unfold subscript at 1. rewrite Huri. unfold ret at 1.
    rewrite Hin.
    rewrite (login_finished_run credentials end_uri username password
               usernames passwords w tr Huri Hu Hp).
    fold item. rewrite Hres. reflexivity. }
  repeat split; try reflexivity; try exact Hrun.
  - rewrite Hrun, check_public_profile_run, Hcheck. reflexivity.
  - intros Hkeep. unfold w2, after_check, w1, after_submission, user_info. simpl.
    rewrite !Hkeep. reflexivity.
Qed.

(** C6 (amended): on both paths that end the handshake with success the
    pending credentials are [None] when the result is handed back; on
    both paths that end it with a failure step they are left as they
    were: the pair just submitted after a failed first submission, the
    stored pair after a failed two-factor round. *)
Theorem pending_state_after_handshake :
  (forall (credentials : gmap string string) (end_uri username password : string)
          (usernames passwords : list string) (w : World) (tr : Trace),
     credentials !! "end_uri" = Some end_uri ->
     parse_qs lib (urlsplit_query lib end_uri) !! "username" = Some (username :: usernames) ->
     parse_qs lib (urlsplit_query lib end_uri) !! "password" = Some (password :: passwords) ->
     submission_result env (mkPayload password None) tr <> NoActionRequired ->
     submission_result env (mkPayload password None) tr <> EmailTwoFactorInputRequired ->
     submission_result env (mkPayload password None) tr <> PhoneTwoFactorInputRequired ->
     (_handle_login_finished lib env credentials w tr).1.1 =
       Ok (NextStep LOGIN_FAILED LOGIN_FINISHED) /\
     _auth_data (_handle_login_finished lib env credentials w tr).1.2 =
       Some (username, password)) /\
  (forall (credentials : gmap string string) (end_uri username password : string)
          (usernames passwords : list string) (w : World) (tr : Trace),
     credentials !! "end_uri" = Some end_uri ->
     parse_qs lib (urlsplit_query lib end_uri) !! "username" = Some (username :: usernames) ->
     parse_qs lib (urlsplit_query lib end_uri) !! "password" = Some (password :: passwords) ->
     submission_result env (mkPayload password None) tr = NoActionRequired ->
     _auth_data (_handle_login_finished lib env credentials w tr).1.2 = None) /\
  (forall (params : gmap string (list string)) (code : string) (codes : list string)
          (fail : StartUri) (finish : EndUri) (u p : string) (w : World) (tr : Trace),
     params !! "code" = Some (code :: codes) ->
     _auth_data w = Some (u, p) ->
     submission_result env (mkPayload p (Some code)) tr = NoActionRequired ->
     (exists sid display_name,
        (_handle_two_step lib env params fail finish w tr).1.1 =
          Ok (Authentication sid display_name)) /\
     _auth_data (_handle_two_step lib env params fail finish w tr).1.2 = None) /\
  (forall (params : gmap string (list string)) (code : string) (codes : list string)
          (fail : StartUri) (finish : EndUri) (u p : string) (w : World) (tr : Trace),
     params !! "code" = Some (code :: codes) ->
     _auth_data w = Some (u, p) ->
     submission_result env (mkPayload p (Some code)) tr <> NoActionRequired ->
     (_handle_two_step lib env params fail finish w tr).1.1 = Ok (NextStep fail finish) /\
     _auth_data (_handle_two_step lib env params fail finish w tr).1.2 = Some (u, p)).
Proof.
  split; [|split; [|split]].
  - intros credentials end_uri username pw usernames passwords w tr Huri Hu Hp H1 H2 H3.
    rewrite (login_finished_run credentials end_uri username pw
               usernames passwords w tr Huri Hu Hp).
    destruct (submission_result env _ tr); [congruence .. |]. split; reflexivity.
  - intros credentials end_uri username pw usernames passwords w tr Huri Hu Hp Hres.
    rewrite (login_finished_run credentials end_uri username pw
               usernames passwords w tr Huri Hu Hp).
    rewrite Hres, check_public_profile_run. reflexivity.
  - intros params code codes fail finish u p w tr Hcode Hauth Hres.
    rewrite (two_step_run params code codes fail finish u p w tr Hcode Hauth), Hres.
    split; [eauto | reflexivity].
  - intros params code codes fail finish u p w tr Hcode Hauth Hres.
    rewrite (two_step_run params code codes fail finish u p w tr Hcode Hauth).
    destruct (submission_result env _ tr); [congruence | ..]; split;
      solve [reflexivity | exact Hauth].
Qed.

(** C7 (amended): on the e-mail form, a "resend" payload puts the stored
    password alone on the outbound queue, waits once on the inbound queue
    whatever it yields, and hands back the e-mail two-factor step; the
    backend's own attributes are untouched and the shared objects carry
    the protocol session's writes only. *)
Theorem email_resend_reemits_step (credentials : gmap string string) (end_uri u p : string)
    (w : World) (tr : Trace) :
  credentials !! "end_uri" = Some end_uri ->
  dict_has (parse_qs lib (urlsplit_query lib end_uri)) "resend" = true ->
  _auth_data w = Some (u, p) ->
  let item := mkPayload p None in
  let w' := after_submission env item w tr in
  _handle_two_step_email_finished lib env credentials w tr =
    (Ok (NextStep TWO_FACTOR_MAIL TWO_FACTOR_MAIL_FINISHED), w',
     tr ++ [EvQueuePut "websocket" item; EvQueueGet "plugin" 20]) /\
  _auth_data w' = _auth_data w /\
  _owned_games_parsed w' = _owned_games_parsed w /\
  _steam_run_task w' = _steam_run_task w /\
  shared w' =
    protocol_writes env (tr ++ [EvQueuePut "websocket" item; EvQueueGet "plugin" 20])
      (protocol_writes env (tr ++ [EvQueuePut "websocket" item]) (shared w)) /\
  ((forall t s, protocol_writes env t s = s) -> w' = w).
Proof.
  intros Huri Hresend Hauth item w'.
  repeat split.
  - unfold _handle_two_step_email_finished.
    unfold bind at 1. unfold subscript at 1. rewrite Huri. unfold ret at 1.
    rewrite Hresend.
    unfold bind at 1. unfold stored_password at 1.
    unfold bind at 1. unfold get_world at 1. rewrite Hauth. unfold ret at 1.
    rewrite (bind_seq_run _ _ _ _ _ _ _ _ (submission_run item w tr)).
    reflexivity.
  - intros Hquiet. unfold w', after_submission, with_shared. rewrite !Hquiet.
    destruct w; reflexivity.
Qed.

(** *** The dispatch on the completion *)

(** C9: a completion whose address contains none of the four recognised
    forms makes the entry point fall off its end: the host receives
    [None], neither an authentication nor a next step. *)
Theorem pass_login_credentials_unrecognized (credentials : gmap string string)
    (end_uri : string) (w : World) (tr : Trace) :
  credentials !! "end_uri" = Some end_uri ->
  str_in "login_finished" end_uri = false ->
  str_in "two_factor_mobile_finished" end_uri = false ->
  str_in "two_factor_mail_finished" end_uri = false ->
  str_in "public_prompt_finished" end_uri = false ->
  pass_login_credentials lib env credentials w tr = (Ok PyNone, w, tr).
Proof.
  intros Huri H1 H2 H3 H4. unfold pass_login_credentials.
  unfold bind at 1. unfold subscript at 1. rewrite Huri. unfold ret at 1.
  rewrite H1, H2, H3, H4. reflexivity.
Qed.

Lemma returns_a_result_bind {A : Type} (m : M A) (k : A -> M AuthReturn) :
  (forall a, returns_a_result (k a)) -> returns_a_result (bind m k).
Proof.
  intros Hk w tr. unfold bind. destruct (m w tr) as [[[a|e] w'] tr'].
  - apply Hk.
  - discriminate.
Qed.

Lemma returns_a_result_step (s : StartUri) (e : EndUri) :
  returns_a_result (ret (next_step_response s e)).
Proof. intros w tr. discriminate. Qed.

Lemma returns_a_result_authentication : returns_a_result current_authentication.
Proof. intros w tr. discriminate. Qed.

Lemma returns_a_result_check : returns_a_result (_check_public_profile env).
Proof.
  intros w tr. rewrite check_public_profile_run.
  destruct (env_check_is_public env _) as [[]|]; discriminate.
Qed.

Ltac returns_a_result :=
  repeat first
    [ apply returns_a_result_step
    | apply returns_a_result_authentication
    | apply returns_a_result_check
    | apply returns_a_result_bind; intros ?
    | match goal with
      | |- returns_a_result (if ?c then _ else _) => destruct c
      | |- returns_a_result (match ?c with _ => _ end) => destruct c
      end ].

Lemma returns_a_result_two_step (params : gmap string (list string))
    (fail : StartUri) (finish : EndUri) :
  returns_a_result (_handle_two_step lib env params fail finish).
Proof. unfold _handle_two_step. returns_a_result. Qed.

(** A completion of one of the four recognised forms never makes the entry
    point return [None]. *)
Lemma pass_login_credentials_recognized (credentials : gmap string string)
    (end_uri : string) (w : World) (tr : Trace) :
  credentials !! "end_uri" = Some end_uri ->
  str_in "login_finished" end_uri || str_in "two_factor_mobile_finished" end_uri
    || str_in "two_factor_mail_finished" end_uri
    || str_in "public_prompt_finished" end_uri = true ->
  (pass_login_credentials lib env credentials w tr).1.1 <> Ok PyNone.
Proof.
  intros Huri Hin. unfold pass_login_credentials.
  unfold bind at 1. unfold subscript at 1. rewrite Huri. unfold ret at 1.
  destruct (str_in "login_finished" end_uri).
  { revert w tr. change (returns_a_result (_handle_login_finished lib env credentials)).
    unfold _handle_login_finished. returns_a_result. }
  destruct (str_in "two_factor_mobile_finished" end_uri).
  { revert w tr.
    change (returns_a_result (_handle_two_step_mobile_finished lib env credentials)).
    unfold _handle_two_step_mobile_finished. returns_a_result.
    apply returns_a_result_two_step. }
  destruct (str_in "two_factor_mail_finished" end_uri).
  { revert w tr.
    change (returns_a_result (_handle_two_step_email_finished lib env credentials)).
    unfold _handle_two_step_email_finished. returns_a_result.
    apply returns_a_result_two_step. }
  destruct (str_in "public_prompt_finished" end_uri); [|discriminate].
  revert w tr.
  change (returns_a_result (_handle_public_prompt_finished lib env credentials)).
  unfold _handle_public_prompt_finished. returns_a_result.
Qed.
(** *** Feature queries *)

(** C1 (amended): with no account id in the identity record, the owned
    games listing, the three context preparations that carry the check
    and the friends listing raise [AuthenticationRequired] at once: no
    call is made and nothing is written. *)
Theorem guarded_features_require_identity (game_ids : list string) (w : World) (tr : Trace) :
  steam_id (user_info w) = None ->
  get_owned_games lib env w tr = (Raise AuthenticationRequired, w, tr) /\
  prepare_achievements_context env game_ids w tr = (Raise AuthenticationRequired, w, tr) /\
  prepare_game_times_context env game_ids w tr = (Raise AuthenticationRequired, w, tr) /\
  prepare_game_library_settings_context env game_ids w tr =
    (Raise AuthenticationRequired, w, tr) /\
  get_friends env w tr = (Raise AuthenticationRequired, w, tr).
Proof.
  intros Hnone.
  assert (Hguard : require_steam_id w tr = (Raise AuthenticationRequired, w, tr)).
  { unfold require_steam_id. unfold_monad. rewrite Hnone. reflexivity. }
  unfold get_owned_games, prepare_achievements_context, prepare_game_times_context,
    prepare_game_library_settings_context, get_friends.
  repeat split; unfold bind at 1; rewrite Hguard; reflexivity.
Qed.

(** C10: the playtime lookup never raises.  For an id with a record, the
    last-played field is [None] when the record holds the sentinel 86400
    and the recorded value otherwise; for an id without a record both
    fields are [None]. *)
Theorem game_time_lookup (game_id : string) (w : World) (tr : Trace) :
  exists gt,
    get_game_time game_id w tr = (Ok gt, w, tr) /\
    gt_game_id gt = game_id /\
    (forall record, times (_times_cache (shared w)) !! game_id = Some record ->
       time_played gt = record !! "time_played" /\
       (record !! "last_played" = Some 86400 -> last_played_time gt = None) /\
       (record !! "last_played" <> Some 86400 ->
        last_played_time gt = record !! "last_played")) /\
    (times (_times_cache (shared w)) !! game_id = None ->
     time_played gt = None /\ last_played_time gt = None).
Proof.
  unfold get_game_time, GAME_DOES_NOT_SUPPORT_LAST_PLAYED_VALUE. unfold_monad.
  eexists. split; [reflexivity|]. cbn [gt_game_id time_played last_played_time].
  split; [reflexivity|]. split.
  - intros record ->. cbn [from_option id]. repeat split.
    + intros ->. rewrite decide_True by reflexivity. reflexivity.
    + intros Hne. rewrite decide_False by exact Hne. reflexivity.
  - intros ->. cbn [from_option id]. rewrite !lookup_empty.
    rewrite decide_False by discriminate. split; reflexivity.
Qed.

(** *** Forwarding new games to the host *)

Opaque Nat.modulo Nat.div.

Lemma forward_new_games_calls (new_games : list App) :
  forall (i : nat) (w : World) (tr : Trace),
  exists w', forward_new_games env i new_games w tr =
             (Ok tt, w', tr ++ forwarding_calls i new_games).
Proof.
  induction new_games as [|game rest IH]; intros i w tr.
  - exists w. simpl. unfold ret. rewrite app_nil_r. reflexivity.
  - cbn [forward_new_games forwarding_calls]. unfold bind, emit, await, ret.
    destruct (i mod 50 =? 49)%nat; cbv beta iota zeta.
    + destruct (IH (S i)
                  (with_shared (protocol_writes env ((tr ++ [forwarded game]) ++ [EvSleep 5])) w)
                  ((tr ++ [forwarded game]) ++ [EvSleep 5])) as [w' Hw'].
      exists w'. unfold forwarded in *. rewrite Hw', <- !app_assoc. reflexivity.
    + destruct (IH (S i) w (tr ++ [forwarded game])) as [w' Hw'].
      exists w'. unfold forwarded in *. rewrite Hw', <- !app_assoc. reflexivity.
Qed.

Lemma forwarding_calls_forwarded (new_games : list App) (i : nat) :
  List.filter is_forwarded (forwarding_calls i new_games) = map forwarded new_games.
Proof.
  revert i. induction new_games as [|game rest IH]; intros i; [reflexivity|].
  simpl. destruct (i mod 50 =? 49)%nat; simpl; rewrite IH; reflexivity.
Qed.

Lemma forwarding_calls_count (new_games : list App) (i : nat) :
  count_forwarded (forwarding_calls i new_games) = length new_games.
Proof.
  revert i. induction new_games as [|game rest IH]; intros i; [reflexivity|].
  simpl. destruct (i mod 50 =? 49)%nat; simpl; rewrite IH; reflexivity.
Qed.

Lemma forwarding_calls_head (new_games : list App) (i : nat) (s : Z) :
  forwarding_calls i new_games !! 0%nat <> Some (EvSleep s).
Proof. destruct new_games; simpl; discriminate. Qed.

(** Right after a forwarded entry comes a pause exactly when the entries
    forwarded so far, counted from the start of the loop, are a multiple
    of 50. *)
Lemma forwarding_calls_pause_after (new_games : list App) :
  forall (i k : nat) (g : Game),
  forwarding_calls i new_games !! k = Some (EvAddGame g) ->
  (forwarding_calls i new_games !! S k = Some (EvSleep 5) <->
   ((i + count_forwarded (take (S k) (forwarding_calls i new_games))) mod 50 = 0)%nat).
Proof.
  induction new_games as [|game rest IH]; intros i k g Hk; [discriminate|].
  simpl in Hk |- *.
  destruct (Nat.eqb_spec (i mod 50) 49) as [Hi|Hi]; simpl in Hk |- *.
  - destruct k as [|[|k]]; simpl in Hk |- *.
    + split; [intros _; mod_lia | reflexivity].
    + discriminate.
    + rewrite (IH (S i) k g Hk).
      replace (i + S (count_forwarded (take (S k) (forwarding_calls (S i) rest))))%nat
        with (S i + count_forwarded (take (S k) (forwarding_calls (S i) rest)))%nat by lia.
      reflexivity.
  - destruct k as [|k]; simpl in Hk |- *.
    + split.
      * intros H. exfalso. exact (forwarding_calls_head rest (S i) 5 H).
      * intros H. exfalso. mod_lia.
    + rewrite (IH (S i) k g Hk).
      replace (i + S (count_forwarded (take (S k) (forwarding_calls (S i) rest))))%nat
        with (S i + count_forwarded (take (S k) (forwarding_calls (S i) rest)))%nat by lia.
      reflexivity.
Qed.

(** Every call that is not a forwarded entry is a pause of 5 that comes
    right after a forwarded entry. *)
Lemma forwarding_calls_pause_before (new_games : list App) :
  forall (i k : nat) (ev : Event),
  forwarding_calls i new_games !! k = Some ev ->
  is_forwarded ev = false ->
  ev = EvSleep 5 /\
  exists k' g, k = S k' /\ forwarding_calls i new_games !! k' = Some (EvAddGame g).
Proof.
  induction new_games as [|game rest IH]; intros i k ev Hk Hev; [discriminate|].
  simpl in Hk. destruct k as [|k].
  - simpl in Hk. injection Hk as <-. discriminate.
  - simpl in Hk. destruct (i mod 50 =? 49)%nat eqn:Hi.
    + destruct k as [|k].
      * simpl in Hk. injection Hk as <-. split; [reflexivity|].
        exists 0%nat, (mkGame (appid game) (title game) [] (mkLicenseInfo SinglePurchase None)).
        split; reflexivity.
      * simpl in Hk. destruct (IH (S i) k ev Hk Hev) as [-> (k' & g & -> & Hk')].
        split; [reflexivity|]. exists (S (S k')), g. split; [reflexivity|].
        simpl. rewrite Hi. exact Hk'.
    + simpl in Hk. destruct (IH (S i) k ev Hk Hev) as [-> (k' & g & -> & Hk')].
      split; [reflexivity|]. exists (S k'), g. split; [reflexivity|].
      simpl. rewrite Hi. exact Hk'.
Qed.

Lemma forwarding_calls_pauses (new_games : list App) (i : nat) :
  count_pauses (forwarding_calls i new_games) = ((i mod 50 + length new_games) / 50)%nat.
Proof.
  revert i. induction new_games as [|game rest IH]; intros i.
  - simpl. mod_lia.
  - simpl. destruct (Nat.eqb_spec (i mod 50) 49) as [Hi|Hi]; simpl; rewrite IH; mod_lia.
Qed.

Lemma count_forwarded_take_le (evs : Trace) (k : nat) :
  (count_forwarded (take k evs) <= count_forwarded evs)%nat.
Proof.
  revert k. induction evs as [|ev evs IH]; intros [|k]; simpl; try lia.
  specialize (IH k). lia.
Qed.

Lemma count_forwarded_take_S (evs : Trace) (k : nat) (g : Game) :
  evs !! k = Some (EvAddGame g) ->
  count_forwarded (take (S k) evs) = S (count_forwarded (take k evs)).
Proof.
  revert k. induction evs as [|ev evs IH]; intros k Hk; [discriminate|].
  destruct k as [|k].
  - simpl in Hk. injection Hk as ->. reflexivity.
  - simpl in Hk. specialize (IH k Hk).
    change (take (S (S k)) (ev :: evs)) with (ev :: take (S k) evs).
    change (take (S k) (ev :: evs)) with (ev :: take k evs).
    cbn [count_forwarded]. lia.
Qed.

(** The [n]-th forwarded entry of a sequence that forwards at least [n]. *)
Lemma nth_forwarded_exists (evs : Trace) (n : nat) :
  (0 < n <= count_forwarded evs)%nat ->
  exists k g, evs !! k = Some (EvAddGame g) /\ count_forwarded (take (S k) evs) = n.
Proof.
  revert n. induction evs as [|ev evs IH]; intros n Hn; [simpl in Hn; lia|].
  destruct (is_forwarded ev) eqn:Hev.
  - destruct ev; try discriminate.
    destruct (decide (n = 1%nat)) as [->|Hn1].
    + exists 0%nat, g. split; reflexivity.
    + simpl in Hn. destruct (IH (n - 1)%nat ltac:(lia)) as (k & g' & Hk & Hc).
      exists (S k), g'. split; [exact Hk|].
      change (take (S (S k)) (EvAddGame g :: evs)) with (EvAddGame g :: take (S k) evs).
      cbn [count_forwarded is_forwarded]. lia.
  - simpl in Hn. rewrite Hev in Hn. destruct (IH n ltac:(lia)) as (k & g' & Hk & Hc).
    exists (S k), g'. split; [exact Hk|].
    change (take (S (S k)) (ev :: evs)) with (ev :: take (S k) evs).
    cbn [count_forwarded]. rewrite Hev. lia.
Qed.

(** C8: the calls made while forwarding the drained batch.  Each entry is
    forwarded once, in order; a pause follows a forwarded entry exactly
    when that entry is the 50th, 100th, ... of the batch; every pause
    comes right after a forwarded entry; for a batch of 120 there are
    exactly two pauses, after the 50th and after the 100th entry. *)
Theorem forwarding_pauses_after_each_50th (w : World) (tr : Trace) :
  let new_games := added_games (_games_cache (shared w)) in
  exists evs w',
    _update_owned_games lib env w tr = (Ok tt, w', tr ++ evs) /\
    List.filter is_forwarded evs = map forwarded new_games /\
    (forall k g, evs !! k = Some (EvAddGame g) ->
       (evs !! S k = Some (EvSleep 5) <->
        (count_forwarded (take (S k) evs) mod 50 = 0)%nat)) /\
    (forall k ev, evs !! k = Some ev -> is_forwarded ev = false ->
       ev = EvSleep 5 /\ exists k' g, k = S k' /\ evs !! k' = Some (EvAddGame g)) /\
    count_pauses evs = (length new_games / 50)%nat /\
    (length new_games = 120%nat ->
     count_pauses evs = 2%nat /\
     (forall k, evs !! k = Some (EvSleep 5) ->
        count_forwarded (take k evs) = 50%nat \/ count_forwarded (take k evs) = 100%nat) /\
     (exists k, evs !! k = Some (EvSleep 5) /\ count_forwarded (take k evs) = 50%nat) /\
     (exists k, evs !! k = Some (EvSleep 5) /\ count_forwarded (take k evs) = 100%nat)).
Proof.
  intros new_games.
  set (evs := forwarding_calls 0 new_games).
  assert (Hafter : forall k g, evs !! k = Some (EvAddGame g) ->
            (evs !! S k = Some (EvSleep 5) <->
             (count_forwarded (take (S k) evs) mod 50 = 0)%nat)).
  { intros k g Hk. exact (forwarding_calls_pause_after new_games 0 k g Hk). }
  assert (Hbefore : forall k ev, evs !! k = Some ev -> is_forwarded ev = false ->
            ev = EvSleep 5 /\ exists k' g, k = S k' /\ evs !! k' = Some (EvAddGame g)).
  { intros k ev. apply forwarding_calls_pause_before. }
  assert (Hpauses : count_pauses evs = (length new_games / 50)%nat).
  { unfold evs. rewrite forwarding_calls_pauses. reflexivity. }
  assert (Hcount : count_forwarded evs = length new_games).
  { apply forwarding_calls_count. }
  assert (Hrun : exists w', _update_owned_games lib env w tr = (Ok tt, w', tr ++ evs)).
  { unfold _update_owned_games, consume_added_games, persist_games_cache.
    unfold bind at 1. unfold bind at 1. unfold get_world at 1.
    unfold bind at 1. unfold modify at 1. unfold ret at 1.
    fold new_games. subst evs. destruct new_games as [|game rest].
    - eexists. simpl. unfold ret. rewrite app_nil_r. reflexivity.
    - unfold bind at 1. unfold bind at 1. unfold get_world at 1.
      unfold bind at 1. unfold modify at 1. unfold modify at 1.
      apply forward_new_games_calls. }
  destruct Hrun as [w' Hrun]. exists evs, w'.
  split; [exact Hrun|]. split; [apply forwarding_calls_forwarded|].
  split; [exact Hafter|]. split; [exact Hbefore|]. split; [exact Hpauses|].
  intros Hlen. rewrite Hlen in Hpauses, Hcount.
  assert (Hpause_at : forall n, (n = 50 \/ n = 100)%nat ->
            exists k, evs !! k = Some (EvSleep 5) /\ count_forwarded (take k evs) = n).
  { intros n Hn.
    destruct (nth_forwarded_exists evs n ltac:(lia)) as (k & g & Hk & Hc).
    exists (S k). split; [|exact Hc].
    apply (Hafter k g Hk). rewrite Hc. destruct Hn as [-> | ->]; reflexivity. }
  split; [rewrite Hpauses; reflexivity|]. split.
  - intros k Hk.
    destruct (Hbefore k (EvSleep 5) Hk eq_refl) as [_ (k' & g & -> & Hk')].
    pose proof (proj1 (Hafter k' g Hk') Hk) as Hmod.
    pose proof (count_forwarded_take_le evs (S k')) as Hle.
    pose proof (count_forwarded_take_S evs k' g Hk') as HS.
    mod_lia.
  - split; apply Hpause_at; lia.
Qed.

Transparent Nat.modulo Nat.div.

End BackendFacts.

(** ** The properties at work on concrete runs *)

Lemma auth_step_timeout_is_no_action_witness :
  _get_websocket_auth_step (scripted_env false None None [] None) fresh_world [] =
    (Ok NoActionRequired, fresh_world, [EvQueueGet "plugin" 20]).
Proof.
  exact (auth_step_timeout_is_no_action (scripted_env false None None [] None)
           fresh_world [] eq_refl).
Defined.

Lemma guarded_features_require_identity_witness :
  steam_id (user_info fresh_world) = None /\
  get_owned_games simple_lib (scripted_env true None None [] None) fresh_world [] =
    (Raise AuthenticationRequired, fresh_world, []) /\
  get_friends (scripted_env true None None [] None) fresh_world [] =
    (Raise AuthenticationRequired, fresh_world, []).
Proof.
  split; [reflexivity|].
  pose proof (guarded_features_require_identity simple_lib
                (scripted_env true None None [] None) ["10"; "20"] fresh_world [] eq_refl)
    as (Howned & _ & _ & _ & Hfriends).
  split; [exact Howned | exact Hfriends].
Defined.

(** C1, as stated, fails: with no account id in the identity record the
    subscription listing waits on the games cache, iterates over it and
    returns a listing, and the presence preparation asks the protocol
    session for the friends' records; neither raises
    [AuthenticationRequired]. *)
Lemma unguarded_features_without_identity :
  steam_id (user_info fresh_world) = None /\
  get_subscriptions (scripted_env false None None [] None) fresh_world [] =
    (Ok [mkSubscription "Steam Family Sharing" false None AUTOMATIC], fresh_world,
     [EvWaitReady GamesCacheName 90; EvIterGames SharedGames]) /\
  (get_subscriptions (scripted_env false None None [] None) fresh_world []).1.1 <>
    Raise AuthenticationRequired /\
  prepare_user_presence_context (scripted_env false None None [] None)
    [KInt 76561198000000002] fresh_world [] =
    (Ok [], fresh_world, [EvGetFriendsInfo [KInt 76561198000000002]]).
Proof. repeat split; discriminate. Qed.

Lemma resume_race_outcomes_witness :
  authenticate simple_lib (scripted_env true None None [UserInfoInitializedWait] None)
    (Some stored_credentials_example) fresh_world [] =
    (Ok (Authentication (Some 76561198000000001) (Some "gordon")),
     resumed simple_lib (scripted_env true None None [UserInfoInitializedWait] None)
       stored_credentials_example fresh_world [],
     resume_trace [] ++
     [EvStoreCredentials
        (simple_to_dict (mkUserInfoCache (Some 76561198000000001) (Some "gordon")
                                         (Some "gordon") true true))]) /\
  (authenticate simple_lib
     (scripted_env false None None [WebsocketRun] (Some (OtherException "ConnectionError")))
     (Some stored_credentials_example) fresh_world []).1.1 =
    Raise (OtherException "ConnectionError") /\
  (authenticate simple_lib (scripted_env false None None [WebsocketRun] None)
     (Some stored_credentials_example) fresh_world []).1.1 =
    Raise (UnknownError "Unexcpeted, silent websocket close.") /\
  (authenticate simple_lib (scripted_env false None None [] (Some CancelledError))
     (Some stored_credentials_example) fresh_world []).1 =
    (Raise BackendTimeout,
     resumed simple_lib (scripted_env false None None [] (Some CancelledError))
       stored_credentials_example fresh_world []) /\
  (authenticate simple_lib (scripted_env false None None [] (Some (OtherException "OSError")))
     (Some stored_credentials_example) fresh_world []).1.1 =
    Raise (OtherException "OSError").
Proof.
  split; [|split; [|split; [|split]]].
  - apply (proj1 (resume_race_outcomes simple_lib
                    (scripted_env true None None [UserInfoInitializedWait] None)
                    stored_credentials_example fresh_world [])).
    apply list_elem_of_here.
  - rewrite (proj1 (proj2 (resume_race_outcomes simple_lib
                    (scripted_env false None None [WebsocketRun]
                       (Some (OtherException "ConnectionError")))
                    stored_credentials_example fresh_world []))
               ltac:(apply (bool_decide_unpack _); vm_compute; exact I)
               ltac:(apply list_elem_of_here)
               (OtherException "ConnectionError") eq_refl).
    reflexivity.
  - rewrite (proj1 (proj2 (proj2 (resume_race_outcomes simple_lib
                    (scripted_env false None None [WebsocketRun] None)
                    stored_credentials_example fresh_world [])))
               ltac:(apply (bool_decide_unpack _); vm_compute; exact I)
               ltac:(apply list_elem_of_here) eq_refl).
    reflexivity.
  - rewrite (proj1 (proj2 (proj2 (proj2 (resume_race_outcomes simple_lib
                    (scripted_env false None None [] (Some CancelledError))
                    stored_credentials_example fresh_world []))))
               ltac:(apply not_elem_of_nil) ltac:(apply not_elem_of_nil)
               (or_introl eq_refl)).
    reflexivity.
  - rewrite (proj2 (proj2 (proj2 (proj2 (resume_race_outcomes simple_lib
                    (scripted_env false None None [] (Some (OtherException "OSError")))
                    stored_credentials_example fresh_world []))))
               ltac:(apply not_elem_of_nil) ltac:(apply not_elem_of_nil)
               (OtherException "OSError") eq_refl ltac:(discriminate)).
    reflexivity.
Defined.

(** C2, as stated, fails in its last case: neither task completes in
    time, the run loop is cancelled, and the error it ends with while
    being cancelled is raised; [BackendTimeout] is not. *)
Lemma resume_timeout_without_backend_timeout :
  env_wait_done (scripted_env false None None [] (Some (OtherException "ConnectionResetError")))
    (resume_trace []) = [] /\
  authenticate simple_lib
    (scripted_env false None None [] (Some (OtherException "ConnectionResetError")))
    (Some stored_credentials_example) fresh_world [] =
    (Raise (OtherException "ConnectionResetError"),
     resumed simple_lib
       (scripted_env false None None [] (Some (OtherException "ConnectionResetError")))
       stored_credentials_example fresh_world [],
     resume_trace [] ++ [EvCancelTask WebsocketRun; EvAwaitTask WebsocketRun]) /\
  (authenticate simple_lib
     (scripted_env false None None [] (Some (OtherException "ConnectionResetError")))
     (Some stored_credentials_example) fresh_world []).1.1 <> Raise BackendTimeout.
Proof. repeat split; discriminate. Qed.

Lemma check_public_profile_outcomes_witness :
  _check_public_profile (scripted_env false None (Some ProfileIsNotPublic) [] None)
    (logged_in_world None) [] =
    (Ok (NextStep PP_PROMPT__PROFILE_IS_NOT_PUBLIC PUBLIC_PROMPT_FINISHED),
     logged_in_world None, [EvCheckIsPublic (Some 76561198000000001)]) /\
  _check_public_profile
    (scripted_env false None (Some NotPublicGameDetailsOrUserHasNoGames) [] None)
    (logged_in_world None) [] =
    (Ok (NextStep PP_PROMPT__NOT_PUBLIC_GAME_DETAILS_OR_USER_HAS_NO_GAMES
                  PUBLIC_PROMPT_FINISHED),
     logged_in_world None, [EvCheckIsPublic (Some 76561198000000001)]) /\
  _check_public_profile (scripted_env false None (Some ProfileDoesNotExist) [] None)
    (logged_in_world None) [] =
    (Raise UnknownBackendResponse, logged_in_world None,
     [EvCheckIsPublic (Some 76561198000000001)]) /\
  _check_public_profile (scripted_env false None (Some ValueError) [] None)
    (logged_in_world None) [] =
    (Raise UnknownBackendResponse, logged_in_world None,
     [EvCheckIsPublic (Some 76561198000000001)]) /\
  _check_public_profile
    (scripted_env false None (Some (OtherException "ClientConnectionError")) [] None)
    (logged_in_world None) [] =
    (Ok (NextStep PP_PROMPT__UNKNOWN_ERROR PUBLIC_PROMPT_FINISHED),
     logged_in_world None, [EvCheckIsPublic (Some 76561198000000001)]) /\
  _check_public_profile (scripted_env false None None [] None) (logged_in_world None) [] =
    (Ok (Authentication (Some 76561198000000001) (Some "gordon")),
     logged_in_world None, [EvCheckIsPublic (Some 76561198000000001)]).
Proof.
  repeat apply conj.
  - exact (proj1 (check_public_profile_outcomes
             (scripted_env false None (Some ProfileIsNotPublic) [] None)
             (logged_in_world None) []) eq_refl).
  - exact (proj1 (proj2 (check_public_profile_outcomes
             (scripted_env false None (Some NotPublicGameDetailsOrUserHasNoGames) [] None)
             (logged_in_world None) [])) eq_refl).
  - exact (proj1 (proj2 (proj2 (proj2 (check_public_profile_outcomes
             (scripted_env false None (Some ProfileDoesNotExist) [] None)
             (logged_in_world None) [])))) (or_introl eq_refl)).
  - exact (proj1 (proj2 (proj2 (proj2 (check_public_profile_outcomes
             (scripted_env false None (Some ValueError) [] None)
             (logged_in_world None) [])))) (or_intror eq_refl)).
  - apply (proj1 (proj2 (proj2 (proj2 (proj2 (check_public_profile_outcomes
             (scripted_env false None (Some (OtherException "ClientConnectionError")) [] None)
             (logged_in_world None) [])))))
            (OtherException "ClientConnectionError") eq_refl);
      solve [discriminate | reflexivity].
  - exact (proj2 (proj2 (proj2 (proj2 (proj2 (check_public_profile_outcomes
             (scripted_env false None None [] None)
             (logged_in_world None) []))))) eq_refl).
Defined.

Lemma login_no_action_public_profile_witness :
  exists w',
    pass_login_credentials simple_lib (scripted_env true (Some NoActionRequired) None [] None)
      (credentials_of login_uri) fresh_world [] =
      (Ok (Authentication (Some 76561198000000001) (Some "gordon")), w',
       [EvQueuePut "websocket" (mkPayload "crowbar" None);
        EvQueueGet "plugin" 20;
        EvStoreCredentials
          (simple_to_dict (mkUserInfoCache (Some 76561198000000001) (Some "gordon")
                                           (Some "gordon") true true));
        EvCheckIsPublic (Some 76561198000000001)]) /\
    account_username (user_info w') = Some "gordon" /\
    _auth_data w' = None.
Proof.
  pose proof (login_no_action_public_profile simple_lib
                (scripted_env true (Some NoActionRequired) None [] None)
                (credentials_of login_uri) login_uri "gordon" "crowbar" [] []
                fresh_world [] eq_refl eq_refl eq_refl eq_refl eq_refl eq_refl)
    as (Hrun & _ & Hkeep & Hnone & _).
  eexists. split; [exact Hrun|]. split; [|exact Hnone].
  apply Hkeep. intros t s. simpl. destruct (last t) as [[]|]; reflexivity.
Defined.

Lemma pending_state_after_handshake_witness :
  _auth_data (_handle_login_finished simple_lib
                (scripted_env true (Some InvalidAuthData) None [] None)
                (credentials_of login_uri) fresh_world []).1.2 = Some ("gordon", "crowbar") /\
  _auth_data (_handle_login_finished simple_lib
                (scripted_env true (Some NoActionRequired) None [] None)
                (credentials_of login_uri) fresh_world []).1.2 = None /\
  _auth_data (_handle_two_step simple_lib (scripted_env true (Some NoActionRequired) None [] None)
                (simple_parse_qs (simple_urlsplit_query two_factor_mail_uri)) TWO_FACTOR_MAIL_FAILED TWO_FACTOR_MAIL_FINISHED
                (logged_in_world (Some ("gordon", "crowbar"))) []).1.2 = None /\
  _auth_data (_handle_two_step simple_lib (scripted_env true (Some InvalidAuthData) None [] None)
                (simple_parse_qs (simple_urlsplit_query two_factor_mail_uri)) TWO_FACTOR_MAIL_FAILED TWO_FACTOR_MAIL_FINISHED
                (logged_in_world (Some ("gordon", "crowbar"))) []).1.2 =
    Some ("gordon", "crowbar").
Proof.
  repeat apply conj.
  - apply (proj1 (pending_state_after_handshake simple_lib
                    (scripted_env true (Some InvalidAuthData) None [] None))
             (credentials_of login_uri) login_uri "gordon" "crowbar" [] [] fresh_world []
             eq_refl eq_refl eq_refl); discriminate.
  - exact (proj1 (proj2 (pending_state_after_handshake simple_lib
                    (scripted_env true (Some NoActionRequired) None [] None)))
             (credentials_of login_uri) login_uri "gordon" "crowbar" [] [] fresh_world []
             eq_refl eq_refl eq_refl eq_refl).
  - apply (proj1 (proj2 (proj2 (pending_state_after_handshake simple_lib
                    (scripted_env true (Some NoActionRequired) None [] None))))
             (simple_parse_qs (simple_urlsplit_query two_factor_mail_uri)) "12345" [] TWO_FACTOR_MAIL_FAILED
             TWO_FACTOR_MAIL_FINISHED "gordon" "crowbar"
             (logged_in_world (Some ("gordon", "crowbar"))) []
             eq_refl eq_refl eq_refl).
  - apply (proj2 (proj2 (proj2 (pending_state_after_handshake simple_lib
                    (scripted_env true (Some InvalidAuthData) None [] None))))
             (simple_parse_qs (simple_urlsplit_query two_factor_mail_uri)) "12345" [] TWO_FACTOR_MAIL_FAILED
             TWO_FACTOR_MAIL_FINISHED "gordon" "crowbar"
             (logged_in_world (Some ("gordon", "crowbar"))) []
             eq_refl eq_refl). discriminate.
Defined.

(** C6, as stated, fails: a two-factor round and a first submission that
    end in their failure step both hand the step back with the
    credentials still pending. *)
Lemma failure_steps_keep_pending_password :
  pass_login_credentials simple_lib (scripted_env false (Some InvalidAuthData) None [] None)
    (credentials_of two_factor_mail_uri) (logged_in_world (Some ("gordon", "crowbar"))) [] =
    (Ok (NextStep TWO_FACTOR_MAIL_FAILED TWO_FACTOR_MAIL_FINISHED),
     logged_in_world (Some ("gordon", "crowbar")),
     [EvQueuePut "websocket" (mkPayload "crowbar" (Some "12345")); EvQueueGet "plugin" 20]) /\
  _auth_data (logged_in_world (Some ("gordon", "crowbar"))) <> None /\
  (pass_login_credentials simple_lib (scripted_env false (Some InvalidAuthData) None [] None)
     (credentials_of login_uri) fresh_world []).1.1 =
    Ok (NextStep LOGIN_FAILED LOGIN_FINISHED) /\
  _auth_data (pass_login_credentials simple_lib
                (scripted_env false (Some InvalidAuthData) None [] None)
                (credentials_of login_uri) fresh_world []).1.2 <> None.
Proof. repeat split; discriminate. Qed.

Lemma email_resend_reemits_step_witness :
  _handle_two_step_email_finished simple_lib
    (scripted_env false (Some EmailTwoFactorInputRequired) None [] None)
    (credentials_of mail_resend_uri) (logged_in_world (Some ("gordon", "crowbar"))) [] =
    (Ok (NextStep TWO_FACTOR_MAIL TWO_FACTOR_MAIL_FINISHED),
     logged_in_world (Some ("gordon", "crowbar")),
     [EvQueuePut "websocket" (mkPayload "crowbar" None); EvQueueGet "plugin" 20]).
Proof.
  exact (proj1 (email_resend_reemits_step simple_lib
                  (scripted_env false (Some EmailTwoFactorInputRequired) None [] None)
                  (credentials_of mail_resend_uri) mail_resend_uri "gordon" "crowbar"
                  (logged_in_world (Some ("gordon", "crowbar"))) []
                  eq_refl eq_refl eq_refl)).
Defined.

(** C7, as stated, fails on the mobile channel: a "resend" payload puts
    nothing on the outbound queue, and the step handed back is the
    "mobile code failed" one. *)
Lemma mobile_resend_is_a_failed_code :
  dict_has (simple_parse_qs (simple_urlsplit_query mobile_resend_uri)) "resend" = true /\
  pass_login_credentials simple_lib (scripted_env false (Some NoActionRequired) None [] None)
    (credentials_of mobile_resend_uri) (logged_in_world (Some ("gordon", "crowbar"))) [] =
    (Ok (NextStep TWO_FACTOR_MOBILE_FAILED TWO_FACTOR_MOBILE_FINISHED),
     logged_in_world (Some ("gordon", "crowbar")), []) /\
  NextStep TWO_FACTOR_MOBILE_FAILED TWO_FACTOR_MOBILE_FINISHED <>
    NextStep TWO_FACTOR_MOBILE TWO_FACTOR_MOBILE_FINISHED.
Proof. repeat split; discriminate. Qed.

Lemma pass_login_credentials_unrecognized_witness :
  pass_login_credentials simple_lib (scripted_env true (Some NoActionRequired) None [] None)
    (credentials_of unrecognized_uri) fresh_world [] = (Ok PyNone, fresh_world, []).
Proof.
  exact (pass_login_credentials_unrecognized simple_lib
           (scripted_env true (Some NoActionRequired) None [] None)
           (credentials_of unrecognized_uri) unrecognized_uri fresh_world []
           eq_refl eq_refl eq_refl eq_refl eq_refl).
Defined.

Lemma forwarding_pauses_after_each_50th_witness :
  exists evs w',
    _update_owned_games simple_lib (scripted_env false None None [] None)
      (world_with_new_games 120) [] = (Ok tt, w', evs) /\
    count_forwarded evs = 120%nat /\
    count_pauses evs = 2%nat /\
    evs !! 50%nat = Some (EvSleep 5) /\
    evs !! 101%nat = Some (EvSleep 5).
Proof.
  destruct (forwarding_pauses_after_each_50th simple_lib
              (scripted_env false None None [] None) (world_with_new_games 120) [])
    as (evs & w' & Hrun & Hfwd & _ & _ & _ & H120).
  exists evs, w'.
  assert (Hevs : evs = forwarding_calls 0 (numbered_apps 120)).
  { assert (H : (_update_owned_games simple_lib (scripted_env false None None [] None)
                   (world_with_new_games 120) []).2 = forwarding_calls 0 (numbered_apps 120))
      by (vm_compute; reflexivity).
    rewrite Hrun in H. exact H. }
  split; [exact Hrun|].
  split; [rewrite Hevs; vm_compute; reflexivity|].
  split; [exact (proj1 (H120 eq_refl))|].
  rewrite Hevs. split; vm_compute; reflexivity.
Defined.

Lemma game_time_lookup_witness :
  get_game_time "440"
    (with_shared (fun s => mkShared (_user_info_cache s) (_games_cache s) (_stats_cache s)
                             (mkTimesCache false
                                {[ "440" := {[ "time_played" := 75; "last_played" := 86400 ]};
                                   "570" := {[ "time_played" := 12; "last_played" := 1600000000 ]} ]})
                             (_persistent_cache s) (_persistent_storage_state_modified s))
                 fresh_world) [] =
    (Ok (mkGameTime "440" (Some 75) None),
     with_shared (fun s => mkShared (_user_info_cache s) (_games_cache s) (_stats_cache s)
                             (mkTimesCache false
                                {[ "440" := {[ "time_played" := 75; "last_played" := 86400 ]};
                                   "570" := {[ "time_played" := 12; "last_played" := 1600000000 ]} ]})
                             (_persistent_cache s) (_persistent_storage_state_modified s))
                 fresh_world, []).
Proof.
  destruct (game_time_lookup "440"
    (with_shared (fun s => mkShared (_user_info_cache s) (_games_cache s) (_stats_cache s)
                             (mkTimesCache false
                                {[ "440" := {[ "time_played" := 75; "last_played" := 86400 ]};
                                   "570" := {[ "time_played" := 12; "last_played" := 1600000000 ]} ]})
                             (_persistent_cache s) (_persistent_storage_state_modified s))
                 fresh_world) []) as (gt & Hrun & Hid & Hrec & _).
  rewrite Hrun. destruct gt as [id played last].
  destruct (Hrec {[ "time_played" := 75; "last_played" := 86400 ]} eq_refl)
    as (Hplayed & Hlast & _).
  simpl in Hid, Hplayed, Hlast. rewrite Hid, Hplayed, (Hlast eq_refl). reflexivity.
Defined.

(** ** Further properties *)

Section MoreFacts.

Variable lib : Library.
Variable env : Env.

(** *** Edge cases of the login and two-factor forms *)

(** X2: when the first submission asks for a second factor, the step of
    the matching channel is handed back, the username is in the identity
    record as far as the backend is concerned, and the submitted pair
    stays pending for the code that follows. *)
Theorem login_routes_to_two_factor (credentials : gmap string string)
    (end_uri username pw : string) (usernames passwords : list string)
    (w : World) (tr : Trace) :
  credentials !! "end_uri" = Some end_uri ->
  parse_qs lib (urlsplit_query lib end_uri) !! "username" = Some (username :: usernames) ->
  parse_qs lib (urlsplit_query lib end_uri) !! "password" = Some (pw :: passwords) ->
  let item := mkPayload pw None in
  let w1 := after_submission env item (captured username pw w) tr in
  _auth_data w1 = Some (username, pw) /\
  (submission_result env item tr = EmailTwoFactorInputRequired ->
   _handle_login_finished lib env credentials w tr =
     (Ok (NextStep TWO_FACTOR_MAIL TWO_FACTOR_MAIL_FINISHED), w1, submission_trace item tr)) /\
  (submission_result env item tr = PhoneTwoFactorInputRequired ->
   _handle_login_finished lib env credentials w tr =
     (Ok (NextStep TWO_FACTOR_MOBILE TWO_FACTOR_MOBILE_FINISHED), w1,
      submission_trace item tr)).
Proof.
  intros Huri Hu Hp item w1.
  pose proof (login_finished_run lib env credentials end_uri username pw usernames
                passwords w tr Huri Hu Hp) as Hrun.
  cbv zeta in Hrun. fold item w1 in Hrun.
  split; [reflexivity|]. split; intros Hres; rewrite Hrun, Hres; reflexivity.
Qed.

(** X3: the password typed into the login form is the one sent along
    with the two-factor code.  A login answered with "e-mail code
    required", followed by an e-mail completion carrying a code that is
    accepted, puts the pair (login password, code) on the outbound queue,
    ends in the authentication and leaves nothing pending. *)
Theorem login_then_email_code (credentials code_credentials : gmap string string)
    (end_uri code_uri username pw code : string)
    (usernames passwords codes : list string) (w : World) (tr : Trace) :
  credentials !! "end_uri" = Some end_uri ->
  parse_qs lib (urlsplit_query lib end_uri) !! "username" = Some (username :: usernames) ->
  parse_qs lib (urlsplit_query lib end_uri) !! "password" = Some (pw :: passwords) ->
  code_credentials !! "end_uri" = Some code_uri ->
  parse_qs lib (urlsplit_query lib code_uri) !! "resend" = None ->
  parse_qs lib (urlsplit_query lib code_uri) !! "code" = Some (code :: codes) ->
  let first := mkPayload pw None in
  let second := mkPayload pw (Some code) in
  let w1 := after_submission env first (captured username pw w) tr in
  let tr1 := submission_trace first tr in
  let w2 := after_submission env second w1 tr1 in
  submission_result env first tr = EmailTwoFactorInputRequired ->
  submission_result env second tr1 = NoActionRequired ->
  (_handle_login_finished lib env credentials;;
   _handle_two_step_email_finished lib env code_credentials) w tr =
    (Ok (Authentication (steam_id (user_info w2)) (persona_name (user_info w2))),
     set_auth_data None w2,
     tr ++ [EvQueuePut "websocket" first; EvQueueGet "plugin" 20;
            EvQueuePut "websocket" second; EvQueueGet "plugin" 20;
            EvStoreCredentials (to_dict lib (user_info w2))]).
Proof.
  intros Huri Hu Hp Hcuri Hnoresend Hcode first second w1 tr1 w2 Hfirst Hsecond.
  unfold bind at 1.
  rewrite (login_finished_run lib env credentials end_uri username pw usernames
             passwords w tr Huri Hu Hp).
  fold first. rewrite Hfirst. fold w1 tr1.
  unfold _handle_two_step_email_finished.
  unfold bind at 1. unfold subscript at 1. rewrite Hcuri. unfold ret at 1.
  unfold dict_has at 1. rewrite Hnoresend.
  rewrite (two_step_run lib env _ code codes TWO_FACTOR_MAIL_FAILED
             TWO_FACTOR_MAIL_FINISHED username pw w1 tr1 Hcode eq_refl).
  fold second. rewrite Hsecond. fold w2.
  unfold tr1, submission_trace. rewrite <- !app_assoc. reflexivity.
Qed.

(** X4: a two-factor completion without a code is answered with the
    channel's failure step, and one with a code but no pending password
    raises [TypeError]; in both cases nothing is put on a queue and the
    backend is left as it was. *)
Theorem two_step_without_code_or_password (params : gmap string (list string))
    (fail : StartUri) (finish : EndUri) (w : World) (tr : Trace) :
  (params !! "code" = None ->
   _handle_two_step lib env params fail finish w tr = (Ok (NextStep fail finish), w, tr)) /\
  (forall code codes, params !! "code" = Some (code :: codes) -> _auth_data w = None ->
   _handle_two_step lib env params fail finish w tr = (Raise TypeError, w, tr)).
Proof.
  split.
  - intros Hcode. unfold _handle_two_step, dict_has. rewrite Hcode. reflexivity.
  - intros code codes Hcode Hauth. unfold _handle_two_step, dict_has. rewrite Hcode.
    cbn [negb].
    unfold bind at 1. unfold subscript at 1. rewrite Hcode. unfold ret at 1.
    unfold bind at 1. unfold first_item at 1. unfold ret at 1.
    unfold bind at 1. unfold stored_password at 1.
    unfold bind at 1. unfold get_world at 1. rewrite Hauth. reflexivity.
Qed.

(** *** The public-profile prompt *)

(** X5: the completion of the public-profile prompt.  A declined
    fallback ends in the authentication without asking the profile
    checker; an accepted one is the profile check itself. *)
Theorem public_prompt_outcomes (credentials : gmap string string) (end_uri : string)
    (w : World) (tr : Trace) :
  credentials !! "end_uri" = Some end_uri ->
  let flag := dict_of_pairs (parse_qsl lib (urlsplit_query lib end_uri))
                !! "public_profile_fallback" in
  (strtobool flag = Ok false ->
   _handle_public_prompt_finished lib env credentials w tr =
     (Ok (Authentication (steam_id (user_info w)) (persona_name (user_info w))), w, tr)) /\
  (strtobool flag = Ok true ->
   _handle_public_prompt_finished lib env credentials w tr =
     _check_public_profile env w tr).
Proof.
  intros Huri flag.
  assert (Hrun : _handle_public_prompt_finished lib env credentials w tr =
                 match strtobool flag with
                 | Ok true => _check_public_profile env w tr
                 | Ok false => current_authentication w tr
                 | Raise e => (Raise e, w, tr)
                 end).
  { unfold _handle_public_prompt_finished.
    unfold bind at 1. unfold subscript at 1. rewrite Huri. unfold ret at 1.
    fold flag. unfold bind at 1, lift_result at 1.
    destruct (strtobool flag) as [[]|]; reflexivity. }
  rewrite Hrun. split.
  - intros ->. reflexivity.
  - intros ->. reflexivity.
Qed.

(** The flag is read without regard to case, and only the twelve
    spellings are accepted. *)
Lemma strtobool_accepts (v : string) (b : bool) :
  strtobool (Some v) = Ok b ->
  str_lower v ∈ (if b then ["y"; "yes"; "t"; "true"; "on"; "1"]
                 else ["n"; "no"; "f"; "false"; "off"; "0"]).
Proof.
  unfold strtobool. repeat case_bool_decide; intros [= <-]; assumption.
Qed.

End MoreFacts.

Section MoreFacts2.

Variable lib : Library.
Variable env : Env.

(** *** Cancellation *)

(** X6: when neither task of the resume completes in time and the
    cancelled run loop ends with an error other than the cancellation,
    that error is what the resume raises: only [CancelledError] is
    suppressed, and [BackendTimeout] is not reached. *)
Theorem resume_timeout_cancellation_error (stored_credentials : gmap string string)
    (w : World) (tr : Trace) (e : Exn) :
  let tr1 := resume_trace tr in
  let tr2 := tr1 ++ [EvCancelTask WebsocketRun; EvAwaitTask WebsocketRun] in
  UserInfoInitializedWait ∉ env_wait_done env tr1 ->
  WebsocketRun ∉ env_wait_done env tr1 ->
  env_task_outcome env tr2 = Some e ->
  e <> CancelledError ->
  authenticate lib env (Some stored_credentials) w tr =
    (Raise e, with_shared (protocol_writes env tr2) (resumed lib env stored_credentials w tr),
     tr2).
Proof.
  intros tr1 tr2 Hnin1 Hnin2 He Hne. subst tr1 tr2. simpl.
  unfold _authenticate_with_stored_credentials, create_steam_run_task,
    store_current_credentials, current_authentication, _cancel_task, resumed, resume_trace
    in *.
  unfold USER_INFO_CACHE_INITIALIZED_TIMEOUT. unfold_monad. simpl.
  rewrite <- !app_assoc in *. simpl in *.
  rewrite !bool_decide_eq_false_2 by assumption.
  rewrite <- !app_assoc in *. simpl in *. rewrite He.
  destruct e; try reflexivity. congruence.
Qed.

(** *** Forwarding new games *)

(** X7: with nothing newly added, the forwarding step does nothing: no
    call to the host, no snapshot written, the storage not marked. *)
Theorem update_owned_games_nothing_new (w : World) (tr : Trace) :
  added_games (_games_cache (shared w)) = [] ->
  _update_owned_games lib env w tr = (Ok tt, w, tr).
Proof.
  intros Hempty.
  unfold _update_owned_games, consume_added_games. unfold_monad. rewrite Hempty.
  destruct w as [[u [added lever] s t p m] a o r]. simpl in *. subst added. reflexivity.
Qed.

(** X8: the queue of newly added games is drained by a forwarding step.
    A step run right after another one, with a protocol session that adds
    nothing in between, calls the host for no entry again. *)
Theorem update_owned_games_twice (w : World) (tr : Trace) :
  (forall t s, added_games (_games_cache (protocol_writes env t s)) =
               added_games (_games_cache s)) ->
  exists w1 tr1,
    _update_owned_games lib env w tr = (Ok tt, w1, tr1) /\
    added_games (_games_cache (shared w1)) = [] /\
    _update_owned_games lib env w1 tr1 = (Ok tt, w1, tr1).
Proof.
  intros Hkeep.
  assert (Hdrained : forall new_games i w0 tr0,
            added_games (_games_cache (shared w0)) = [] ->
            exists w1 tr1, forward_new_games env i new_games w0 tr0 = (Ok tt, w1, tr1) /\
                           added_games (_games_cache (shared w1)) = []).
  { induction new_games as [|game rest IH]; intros i w0 tr0 Hw0.
    - exists w0, tr0. split; [reflexivity | exact Hw0].
    - cbn [forward_new_games]. unfold bind, emit, await, ret.
      destruct (i mod 50 =? 49)%nat; cbv beta iota zeta.
      + apply IH. simpl. rewrite Hkeep. exact Hw0.
      + apply IH. exact Hw0. }
  destruct (added_games (_games_cache (shared w))) as [|game rest] eqn:Hadded.
  - exists w, tr. rewrite (update_owned_games_nothing_new w tr Hadded). auto.
  - assert (Hrun : exists w1 tr1, _update_owned_games lib env w tr = (Ok tt, w1, tr1) /\
                                  added_games (_games_cache (shared w1)) = []).
    { unfold _update_owned_games, consume_added_games, persist_games_cache.
      unfold bind at 1. unfold bind at 1. unfold get_world at 1.
      unfold bind at 1. unfold modify at 1. unfold ret at 1. rewrite Hadded.
      unfold bind at 1. unfold bind at 1. unfold get_world at 1.
      unfold bind at 1. unfold modify at 1. unfold modify at 1.
      apply Hdrained. reflexivity. }
    destruct Hrun as (w1 & tr1 & Hrun & Hempty).
    exists w1, tr1. split; [exact Hrun|]. split; [exact Hempty|].
    apply update_owned_games_nothing_new. exact Hempty.
Qed.

(** X9: a forwarding step with something to forward first stores the
    snapshot of the drained games cache under ["games"] and marks the
    storage; with fewer than 50 entries it never suspends, so that is
    the state it returns with. *)
Theorem update_owned_games_persists (w : World) (tr : Trace) :
  let new_games := added_games (_games_cache (shared w)) in
  let drained := with_shared (with_games_cache
                    (fun g => mkGamesCache [] (add_game_lever g))) w in
  new_games <> [] ->
  (length new_games < 50)%nat ->
  _update_owned_games lib env w tr =
    (Ok tt, persisted lib drained, tr ++ map forwarded new_games) /\
  _persistent_cache (shared (persisted lib drained)) !! "games" =
    Some (games_cache_dump lib (mkGamesCache [] (add_game_lever (_games_cache (shared w))))) /\
  _persistent_storage_state_modified (shared (persisted lib drained)) = true.
Proof.
  intros new_games drained Hne Hlen.
  assert (Hquiet : forall games i w0 tr0, (i + length games < 50)%nat ->
            forward_new_games env i games w0 tr0 = (Ok tt, w0, tr0 ++ map forwarded games)).
  { induction games as [|game rest IH]; intros i w0 tr0 Hi.
    - simpl. unfold ret. rewrite app_nil_r. reflexivity.
    - cbn [forward_new_games]. unfold bind, emit, await, ret.
      destruct (Nat.eqb_spec (i mod 50) 49) as [Hmod|Hmod].
      + exfalso. simpl in Hi. rewrite Nat.mod_small in Hmod by lia. lia.
      + cbv beta iota zeta. rewrite IH by (simpl in Hi; lia).
        simpl. rewrite <- app_assoc. reflexivity. }
  split; [|split].
  - unfold _update_owned_games, consume_added_games, persist_games_cache.
    unfold bind at 1. unfold bind at 1. unfold get_world at 1.
    unfold bind at 1. unfold modify at 1. unfold ret at 1. fold new_games.
    destruct new_games as [|game rest] eqn:Hgames; [congruence|].
    unfold bind at 1. unfold bind at 1. unfold get_world at 1.
    unfold bind at 1. unfold modify at 1. unfold modify at 1.
    rewrite Hquiet by (simpl in *; lia). reflexivity.
  - unfold persisted, drained. simpl. apply lookup_insert_eq.
  - reflexivity.
Qed.

End MoreFacts2.

Section MoreFacts3.

Variable lib : Library.
Variable env : Env.

(** *** The owned games listing *)

(** The listing, once the identity is there, by what the games cache
    answers. *)
Lemma get_owned_games_run (w : World) (tr : Trace) :
  steam_id (user_info w) <> None ->
  get_owned_games lib env w tr =
    match env_wait_ready env (games_wait_trace tr) with
    | Some e => (Raise e, after_games_wait env w tr, games_wait_trace tr)
    | None =>
        let w' := set_owned_games_parsed true (after_games_iter env w tr) in
        match env_iter_games env (games_iter_trace tr) with
        | (_, Some e) =>
            (Raise (if is_parse_error e then UnknownBackendResponse else e),
             w', games_iter_trace tr)
        | (apps, None) =>
            (Ok (map (fun app => single_purchase_game (appid app) (title app)) apps ++
                 if does_witcher_3_dlcs_set_resolve_to_GOTY lib
                      (list_to_set (filter (fun id => id ∈ WITCHER_3_DLCS_APP_IDS lib)
                                           (map appid apps)))
                 then [single_purchase_game (WITCHER_3_GOTY_APP_ID lib)
                                            (WITCHER_3_GOTY_TITLE lib)]
                 else []),
             persisted lib w', games_iter_trace tr)
        end
    end.
Proof.
  intros Hid.
  unfold get_owned_games, require_steam_id, wait_ready, collect_owned_games,
    iterate_games, persist_games_cache, GAME_CACHE_IS_READY_TIMEOUT,
    games_wait_trace, after_games_wait, games_iter_trace, after_games_iter, persisted.
  unfold_monad.
  destruct (steam_id (user_info w)) as [sid|]; [|congruence].
  destruct (env_wait_ready env (tr ++ [EvWaitReady GamesCacheName 90])) as [e|];
    [reflexivity|].
  rewrite <- !app_assoc. simpl.
  destruct (env_iter_games env _) as [apps [e|]].
  - destruct e; reflexivity.
  - destruct (does_witcher_3_dlcs_set_resolve_to_GOTY lib _).
    + reflexivity.
    + rewrite app_nil_r. reflexivity.
Qed.

(** X10: once the wait on the games cache has succeeded, the listing
    marks the owned games as parsed however the iteration ends, be it
    with a listing, a parse error or any other error; when the wait
    fails, the mark is left as it was and the cache is not iterated. *)
Theorem get_owned_games_marks_parsed (w : World) (tr : Trace) :
  steam_id (user_info w) <> None ->
  (env_wait_ready env (games_wait_trace tr) = None ->
   _owned_games_parsed (get_owned_games lib env w tr).1.2 = true /\
   (get_owned_games lib env w tr).2 = games_iter_trace tr) /\
  (forall e, env_wait_ready env (games_wait_trace tr) = Some e ->
   (get_owned_games lib env w tr).1.1 = Raise e /\
   _owned_games_parsed (get_owned_games lib env w tr).1.2 = _owned_games_parsed w /\
   (get_owned_games lib env w tr).2 = games_wait_trace tr).
Proof.
  intros Hid. rewrite (get_owned_games_run w tr Hid). split.
  - intros ->. cbv zeta. destruct (env_iter_games env _) as [apps [e|]]; split; reflexivity.
  - intros e ->. repeat split.
Qed.

(** X11: an iteration over the owned games that ends with [KeyError] or
    [ValueError] surfaces as [UnknownBackendResponse]; any other error is
    raised as it is.  In both cases the backend stores no snapshot: the
    persistent cache and its dirty flag hold what the protocol session
    left there. *)
Theorem get_owned_games_iteration_error (w : World) (tr : Trace)
    (apps : list App) (e : Exn) :
  steam_id (user_info w) <> None ->
  env_wait_ready env (games_wait_trace tr) = None ->
  env_iter_games env (games_iter_trace tr) = (apps, Some e) ->
  let w' := (get_owned_games lib env w tr).1.2 in
  (get_owned_games lib env w tr).1.1 =
    Raise (if is_parse_error e then UnknownBackendResponse else e) /\
  _persistent_cache (shared w') = _persistent_cache (shared (after_games_iter env w tr)) /\
  _persistent_storage_state_modified (shared w') =
    _persistent_storage_state_modified (shared (after_games_iter env w tr)).
Proof.
  intros Hid Hwait Hiter w'. subst w'.
  rewrite (get_owned_games_run w tr Hid), Hwait. cbv zeta. rewrite Hiter.
  repeat split.
Qed.

(** X12: a listing that succeeds holds one single-purchase game per entry
    of the cache, in the order yielded, followed by at most one more game,
    the Witcher 3 game of the year edition; the snapshot of the games
    cache is stored under ["games"] and the storage is marked. *)
Theorem get_owned_games_listing (w : World) (tr : Trace) (apps : list App) :
  steam_id (user_info w) <> None ->
  env_wait_ready env (games_wait_trace tr) = None ->
  env_iter_games env (games_iter_trace tr) = (apps, None) ->
  exists owned_games extra w',
    get_owned_games lib env w tr = (Ok owned_games, w', games_iter_trace tr) /\
    owned_games = map (fun app => single_purchase_game (appid app) (title app)) apps ++ extra /\
    (extra = [] \/
     extra = [single_purchase_game (WITCHER_3_GOTY_APP_ID lib) (WITCHER_3_GOTY_TITLE lib)]) /\
    _persistent_cache (shared w') !! "games" =
      Some (games_cache_dump lib (_games_cache (shared (after_games_iter env w tr)))) /\
    _persistent_storage_state_modified (shared w') = true /\
    _owned_games_parsed w' = true.
Proof.
  intros Hid Hwait Hiter.
  rewrite (get_owned_games_run w tr Hid), Hwait. cbv zeta. rewrite Hiter.
  eexists _, _, _. split; [reflexivity|]. split; [reflexivity|].
  split; [destruct (does_witcher_3_dlcs_set_resolve_to_GOTY lib _); auto|].
  split; [|split; reflexivity].
  unfold persisted. simpl. apply lookup_insert_eq.
Qed.

(** *** Subscriptions *)



(** *** Preparing the achievements and the game times *)

(** X14: the guard on imports.  With an import in progress, preparing
    the achievements asks the protocol session for nothing and only
    waits, up to 600, for the statistics cache; otherwise it asks once,
    for the given ids, and waits only if that request succeeds. *)
Theorem prepare_achievements_import_guard (game_ids : list string) (w : World) (tr : Trace) :
  steam_id (user_info w) <> None ->
  (stats_import_in_progress (_stats_cache (shared w)) = true ->
   (prepare_achievements_context env game_ids w tr).2 =
     tr ++ [EvWaitReady StatsCacheName 600]) /\
  (stats_import_in_progress (_stats_cache (shared w)) = false ->
   let tr1 := tr ++ [EvRefreshGameStats game_ids] in
   (env_request env tr1 = None ->
    (prepare_achievements_context env game_ids w tr).2 =
      tr ++ [EvRefreshGameStats game_ids; EvWaitReady StatsCacheName 600]) /\
   (forall e, env_request env tr1 = Some e ->
    prepare_achievements_context env game_ids w tr =
      (Raise e, with_shared (protocol_writes env tr1) w, tr1))).
Proof.
  intros Hid.
  unfold prepare_achievements_context, require_steam_id, request, wait_ready.
  unfold_monad.
  destruct (steam_id (user_info w)) as [sid|]; [|congruence].
  split.
  - intros ->. simpl. destruct (env_wait_ready env _); reflexivity.
  - intros ->. simpl. split.
    + intros ->. rewrite <- !app_assoc. simpl. destruct (env_wait_ready env _); reflexivity.
    + intros e ->. reflexivity.
Qed.

(** X15: the same guard for the game times, whose request takes no
    ids. *)
Theorem prepare_game_times_import_guard (game_ids : list string) (w : World) (tr : Trace) :
  steam_id (user_info w) <> None ->
  (times_import_in_progress (_times_cache (shared w)) = true ->
   (prepare_game_times_context env game_ids w tr).2 =
     tr ++ [EvWaitReady TimesCacheName 600]) /\
  (times_import_in_progress (_times_cache (shared w)) = false ->
   let tr1 := tr ++ [EvRefreshGameTimes] in
   (env_request env tr1 = None ->
    (prepare_game_times_context env game_ids w tr).2 =
      tr ++ [EvRefreshGameTimes; EvWaitReady TimesCacheName 600]) /\
   (forall e, env_request env tr1 = Some e ->
    prepare_game_times_context env game_ids w tr =
      (Raise e, with_shared (protocol_writes env tr1) w, tr1))).
Proof.
  intros Hid.
  unfold prepare_game_times_context, require_steam_id, request, wait_ready.
  unfold_monad.
  destruct (steam_id (user_info w)) as [sid|]; [|congruence].
  split.
  - intros ->. simpl. destruct (env_wait_ready env _); reflexivity.
  - intros ->. simpl. split.
    + intros ->. rewrite <- !app_assoc. simpl. destruct (env_wait_ready env _); reflexivity.
    + intros e ->. reflexivity.
Qed.

End MoreFacts3.

Section MoreFacts4.

Variable env : Env.

(** *** Friends *)

(** X16: when every friend id is a string, the translation of the
    friends never fails: it yields one record per friend, in order, with
    the id, the profile link built from it, and the nickname, if there is
    one, appended in parentheses to the name. *)
Theorem translate_friends_string_ids (friends_infos : list (PyKey * ProtoUserInfo))
    (friends_nicknames : list (PyKey * string)) :
  Forall (fun entry => exists s, entry.1 = KStr s) friends_infos ->
  translate_friends friends_infos friends_nicknames =
    Ok (map (fun entry =>
               let friend := _galaxy_user_info_from_user_info (py_str entry.1) entry.2 in
               match dict_get friends_nicknames entry.1 with
               | Some nick =>
                   set_user_name (user_name friend ++ " (" ++ nick ++ ")")%string friend
               | None => friend
               end) friends_infos).
Proof.
  induction 1 as [|[friend_id info] rest [s Hs] _ IH]; [reflexivity|].
  simpl in Hs. subst friend_id. cbn [translate_friends py_str map fst snd].
  rewrite IH. destruct (dict_get friends_nicknames (KStr s)); reflexivity.
Qed.

(** X17: the nickname is looked for under [str(friend_id)] but read under
    [friend_id] itself.  A friend whose id is an integer and whose
    nickname is filed under the string form of that id makes the
    translation raise [KeyError], whatever comes before it. *)
Theorem translate_friends_key_mismatch (before after : list (PyKey * ProtoUserInfo))
    (id : Z) (info : ProtoUserInfo) (friends_nicknames : list (PyKey * string)) :
  Forall (fun entry => dict_get friends_nicknames (KStr (py_str entry.1)) = None) before ->
  is_Some (dict_get friends_nicknames (KStr (str_Z id))) ->
  dict_get friends_nicknames (KInt id) = None ->
  translate_friends (before ++ (KInt id, info) :: after) friends_nicknames =
    Raise (KeyError (str_Z id)).
Proof.
  intros Hbefore [nick Hnick] Hint.
  induction Hbefore as [|[friend_id info'] rest Hhead _ IH].
  - cbn [app translate_friends py_str]. rewrite Hnick, Hint. reflexivity.
  - simpl in Hhead. cbn [app translate_friends]. rewrite Hhead, IH. reflexivity.
Qed.



End MoreFacts4.

Section MoreFacts5.

Variable env : Env.
Variable strip : string -> string.
Variable py_int : string -> option Z.
Variable stats_cache_get : string -> option GameStats.
Variable UserPresence : Type.
Variable presence_from_user_info : ProtoUserInfo -> M UserPresence.

(** *** Library settings *)

Lemma scan_collections_numeric (game_id : string) (id : Z)
    (context : list (string * list Z)) :
  py_int game_id = Some id ->
  forall (game_in_collections : list string) (hidden : bool),
  scan_collections py_int game_id context game_in_collections hidden =
    Ok (game_in_collections ++
        map fst (List.filter (fun c => holds id c && negb (is_hidden_collection c)) context),
        hidden || existsb (fun c => holds id c && is_hidden_collection c) context).
Proof.
  intros Hid. induction context as [|[collection_name members] rest IH];
    intros game_in_collections hidden.
  - simpl. rewrite app_nil_r, orb_false_r. reflexivity.
  - cbn [scan_collections]. rewrite Hid. unfold holds, is_hidden_collection.
    cbn [List.filter existsb fst snd].
    destruct (bool_decide (id ∈ members)); cbn [andb].
    + destruct (String.eqb (str_lower collection_name) "hidden"); cbn [negb].
      * rewrite IH. unfold holds, is_hidden_collection. rewrite orb_true_r. reflexivity.
      * rewrite IH. unfold holds, is_hidden_collection. cbn [map fst orb].
        rewrite <- app_assoc. reflexivity.
    + rewrite IH. reflexivity.
Qed.

(** X20: for a numeric game id and a non-empty context, the tags are the
    names of the collections that hold the game, in the order of the
    context, without the collections called "hidden" in any casing; the
    game is hidden exactly when such a collection holds it; no tag is
    ever "hidden". *)
Theorem library_settings_tags (game_id : string) (id : Z)
    (context : list (string * list Z)) (w : World) (tr : Trace) :
  py_int game_id = Some id ->
  context <> [] ->
  exists game_tags,
    get_game_library_settings py_int game_id (Some context) w tr =
      (Ok (mkGameLibrarySettings game_id (Some game_tags)
             (Some (existsb (fun c => holds id c && is_hidden_collection c) context))),
       w, tr) /\
    game_tags =
      map fst (List.filter (fun c => holds id c && negb (is_hidden_collection c)) context) /\
    (forall tag, tag ∈ game_tags ->
       str_lower tag <> "hidden" /\ exists members, (tag, members) ∈ context /\ id ∈ members).
Proof.
  intros Hid Hne. eexists. split; [|split; [reflexivity|]].
  - destruct context as [|c rest]; [congruence|].
    unfold get_game_library_settings. unfold_monad.
    rewrite (scan_collections_numeric game_id id (c :: rest) Hid). reflexivity.
  - intros tag Htag. apply list_elem_of_In, in_map_iff in Htag.
    destruct Htag as ([name members] & <- & Hin). apply filter_In in Hin.
    destruct Hin as [Hin Hsel]. apply andb_true_iff in Hsel as [Hholds Hshown].
    unfold holds in Hholds. unfold is_hidden_collection in Hshown. simpl in *.
    split.
    + intros Heq. rewrite Heq in Hshown. discriminate.
    + exists members. split; [apply list_elem_of_In; exact Hin|].
      exact (bool_decide_eq_true_1 _ Hholds).
Qed.

(** X21: without a context, or with an empty one, the settings carry
    neither tags nor a hidden flag, and the game id is not even read as a
    number; with a non-empty context, a game id that is not a number
    raises [ValueError]. *)
Theorem library_settings_edge_cases (game_id : string) (w : World) (tr : Trace) :
  get_game_library_settings py_int game_id None w tr =
    (Ok (mkGameLibrarySettings game_id None None), w, tr) /\
  get_game_library_settings py_int game_id (Some []) w tr =
    (Ok (mkGameLibrarySettings game_id None None), w, tr) /\
  (forall context, py_int game_id = None -> context <> [] ->
   get_game_library_settings py_int game_id (Some context) w tr = (Raise ValueError, w, tr)).
Proof.
  split; [reflexivity|]. split; [reflexivity|].
  intros [|[collection_name members] rest] Hint Hne; [congruence|].
  unfold get_game_library_settings. unfold_monad. cbn [scan_collections].
  rewrite Hint. reflexivity.
Qed.

(** *** Achievements *)

(** The turn of the loop for a record that has a name. *)
Lemma unlocked_achievement_named (record : UnlockRecord) :
  stat_name record <> "" ->
  exists achievement,
    unlocked_achievement strip record = Ok achievement /\
    unlock_time achievement = stat_unlock_time record /\
    achievement_id achievement = None /\
    (strip (stat_name record) <> "" ->
     achievement_name achievement = strip (stat_name record)) /\
    (strip (stat_name record) = "" -> achievement_name achievement = stat_name record) /\
    achievement_name achievement <> "".
Proof.
  intros Hname. unfold unlocked_achievement.
  destruct (String.eqb_spec (strip (stat_name record)) "") as [Hstrip|Hstrip].
  - destruct (String.eqb_spec (stat_name record) "") as [|_]; [contradiction|].
    eexists. split; [reflexivity|]. cbn. repeat split; congruence.
  - destruct (String.eqb_spec (strip (stat_name record)) "") as [|_]; [contradiction|].
    eexists. split; [reflexivity|]. cbn. repeat split; congruence.
Qed.

(** X22: when every unlock record of a game has a name, its achievements
    are those records, one for one and in order, with their unlock
    times; a name is the stripped name, or the name as recorded when
    stripping leaves nothing, and is never empty.  A record without a
    name makes the listing raise [AssertionError]. *)
Theorem unlocked_achievements_of_records (game_id : string) (unlocked : list UnlockRecord)
    (w : World) (tr : Trace) :
  stats_cache_get game_id = Some (mkGameStats (Some unlocked)) ->
  (Forall (fun record => stat_name record <> "") unlocked ->
   exists result,
     get_unlocked_achievements strip stats_cache_get game_id w tr = (Ok result, w, tr) /\
     map unlock_time result = map stat_unlock_time unlocked /\
     Forall2 (fun record achievement =>
                achievement_id achievement = None /\
                (strip (stat_name record) <> "" ->
                 achievement_name achievement = strip (stat_name record)) /\
                (strip (stat_name record) = "" ->
                 achievement_name achievement = stat_name record) /\
                achievement_name achievement <> "")
             unlocked result) /\
  (strip "" = "" ->
   Exists (fun record => stat_name record = "") unlocked ->
   get_unlocked_achievements strip stats_cache_get game_id w tr =
     (Raise (OtherException "AssertionError"), w, tr)).
Proof.
  intros Hget. unfold get_unlocked_achievements, lift_result. rewrite Hget.
  cbn [achievements]. clear Hget. split.
  - intros Hnamed.
    assert (Hok : exists result,
              unlocked_achievements strip unlocked = Ok result /\
              map unlock_time result = map stat_unlock_time unlocked /\
              Forall2 (fun record achievement =>
                         achievement_id achievement = None /\
                         (strip (stat_name record) <> "" ->
                          achievement_name achievement = strip (stat_name record)) /\
                         (strip (stat_name record) = "" ->
                          achievement_name achievement = stat_name record) /\
                         achievement_name achievement <> "")
                      unlocked result).
    { induction Hnamed as [|record rest Hname _ IH].
      - exists []. repeat split. constructor.
      - destruct (unlocked_achievement_named record Hname)
          as (achievement & Hrun & Htime & Hid & Hstripped & Hraw & Hnonempty).
        destruct IH as (result & Hrest & Htimes & Hall).
        exists (achievement :: result). cbn [unlocked_achievements].
        rewrite Hrun, Hrest. split; [reflexivity|]. split.
        + cbn [map]. rewrite Htime, Htimes. reflexivity.
        + constructor; [|exact Hall]. repeat split; assumption. }
    destruct Hok as (result & -> & Htimes & Hall). exists result. auto.
  - intros Hstrip Hnameless.
    assert (Hraise : unlocked_achievements strip unlocked =
                     Raise (OtherException "AssertionError")).
    { induction Hnameless as [record rest Hname | record rest _ IH].
      - cbn [unlocked_achievements]. unfold unlocked_achievement.
        rewrite Hname, Hstrip. reflexivity.
      - cbn [unlocked_achievements]. rewrite IH.
        destruct (String.eqb_spec (stat_name record) "") as [Hname|Hname].
        + unfold unlocked_achievement. rewrite Hname, Hstrip. reflexivity.
        + destruct (unlocked_achievement_named record Hname) as (achievement & -> & _).
          reflexivity. }
    rewrite Hraise. reflexivity.
Qed.

(** *** Presence *)

(** X23: the presence of a user who is not in the prepared context is
    refused with [UnknownError], whose message names the user; the
    presence is not computed. *)
Theorem user_presence_unknown_user (user_id : string)
    (context : list (PyKey * ProtoUserInfo)) (w : World) (tr : Trace) :
  dict_get context (KStr user_id) = None ->
  exists msg,
    get_user_presence UserPresence presence_from_user_info user_id context w tr =
      (Raise (UnknownError msg), w, tr) /\
    str_in user_id msg = true.
Proof.
  intros Hget. unfold get_user_presence. rewrite Hget. eexists. split; [reflexivity|].
  assert (Hprefix : forall a b : string, String.prefix a (a ++ b)%string = true).
  { induction a as [|c a IH]; intros b; simpl; [destruct b; reflexivity|].
    destruct (ascii_dec c c); [apply IH | congruence]. }
  assert (Hskip : forall a b c : string, str_in a b = true -> str_in a (c ++ b)%string = true).
  { intros a b c Hab. induction c as [|x c IH]; [exact Hab|].
    simpl. rewrite IH. apply orb_true_r. }
  apply (Hskip _ _ "User "). destruct user_id; simpl; [reflexivity|].
  destruct (ascii_dec a a); [|congruence]. rewrite Hprefix. reflexivity.
Qed.

(** *** Shared games *)


End MoreFacts5.

Section MoreFacts6.

Variable lib : Library.
Variable env : Env.

(** *** What the entry point hands back *)

(** X25: for a completion of one of the four recognised forms, whatever
    the entry point returns is an authentication or a next step. *)
Theorem pass_login_credentials_returns_a_result (credentials : gmap string string)
    (end_uri : string) (w : World) (tr : Trace) (r : AuthReturn) :
  credentials !! "end_uri" = Some end_uri ->
  str_in "login_finished" end_uri || str_in "two_factor_mobile_finished" end_uri
    || str_in "two_factor_mail_finished" end_uri
    || str_in "public_prompt_finished" end_uri = true ->
  (pass_login_credentials lib env credentials w tr).1.1 = Ok r ->
  (exists account_id display_name, r = Authentication account_id display_name) \/
  (exists start finish, r = NextStep start finish).
Proof.
  intros Huri Hin Hrun.
  pose proof (pass_login_credentials_recognized lib env credentials end_uri w tr Huri Hin)
    as Hnone.
  destruct r as [account_id display_name | start finish |]; [eauto | eauto | congruence].
Qed.

End MoreFacts6.

(** ** The further properties at work on concrete runs *)

Lemma login_routes_to_two_factor_witness :
  (_handle_login_finished simple_lib
     (scripted_env true (Some EmailTwoFactorInputRequired) None [] None)
     (credentials_of login_uri) fresh_world []).1.1 =
    Ok (NextStep TWO_FACTOR_MAIL TWO_FACTOR_MAIL_FINISHED) /\
  (_handle_login_finished simple_lib
     (scripted_env true (Some PhoneTwoFactorInputRequired) None [] None)
     (credentials_of login_uri) fresh_world []).1.1 =
    Ok (NextStep TWO_FACTOR_MOBILE TWO_FACTOR_MOBILE_FINISHED).
Proof.
  split.
  - rewrite (proj1 (proj2 (login_routes_to_two_factor simple_lib
               (scripted_env true (Some EmailTwoFactorInputRequired) None [] None)
               (credentials_of login_uri) login_uri "gordon" "crowbar" [] []
               fresh_world [] eq_refl eq_refl eq_refl)) eq_refl).
    reflexivity.
  - rewrite (proj2 (proj2 (login_routes_to_two_factor simple_lib
               (scripted_env true (Some PhoneTwoFactorInputRequired) None [] None)
               (credentials_of login_uri) login_uri "gordon" "crowbar" [] []
               fresh_world [] eq_refl eq_refl eq_refl)) eq_refl).
    reflexivity.
Defined.

Lemma login_then_email_code_witness :
  (_handle_login_finished simple_lib two_round_env (credentials_of login_uri);;
   _handle_two_step_email_finished simple_lib two_round_env
     (credentials_of two_factor_mail_uri)) fresh_world [] =
    (Ok (Authentication None None),
     mkWorld (with_user_info_cache (set_account_username "gordon") fresh_shared)
             None false None,
     [EvQueuePut "websocket" (mkPayload "crowbar" None); EvQueueGet "plugin" 20;
      EvQueuePut "websocket" (mkPayload "crowbar" (Some "12345")); EvQueueGet "plugin" 20;
      EvStoreCredentials
        (simple_to_dict (mkUserInfoCache None None (Some "gordon") false false))]).
Proof.
  exact (login_then_email_code simple_lib two_round_env
           (credentials_of login_uri) (credentials_of two_factor_mail_uri)
           login_uri two_factor_mail_uri "gordon" "crowbar" "12345" [] [] []
           fresh_world [] eq_refl eq_refl eq_refl eq_refl eq_refl eq_refl eq_refl eq_refl).
Defined.

Lemma two_step_without_code_or_password_witness :
  _handle_two_step simple_lib (scripted_env true (Some NoActionRequired) None [] None)
    (simple_parse_qs (simple_urlsplit_query mobile_resend_uri))
    TWO_FACTOR_MOBILE_FAILED TWO_FACTOR_MOBILE_FINISHED fresh_world [] =
    (Ok (NextStep TWO_FACTOR_MOBILE_FAILED TWO_FACTOR_MOBILE_FINISHED), fresh_world, []) /\
  _handle_two_step simple_lib (scripted_env true (Some NoActionRequired) None [] None)
    (simple_parse_qs (simple_urlsplit_query two_factor_mail_uri))
    TWO_FACTOR_MAIL_FAILED TWO_FACTOR_MAIL_FINISHED fresh_world [] =
    (Raise TypeError, fresh_world, []).
Proof.
  split.
  - exact (proj1 (two_step_without_code_or_password simple_lib
             (scripted_env true (Some NoActionRequired) None [] None)
             (simple_parse_qs (simple_urlsplit_query mobile_resend_uri))
             TWO_FACTOR_MOBILE_FAILED TWO_FACTOR_MOBILE_FINISHED fresh_world []) eq_refl).
  - exact (proj2 (two_step_without_code_or_password simple_lib
             (scripted_env true (Some NoActionRequired) None [] None)
             (simple_parse_qs (simple_urlsplit_query two_factor_mail_uri))
             TWO_FACTOR_MAIL_FAILED TWO_FACTOR_MAIL_FINISHED fresh_world [])
             "12345" [] eq_refl eq_refl).
Defined.

Lemma public_prompt_outcomes_witness :
  _handle_public_prompt_finished simple_lib
    (scripted_env false None (Some ProfileIsNotPublic) [] None)
    (credentials_of (prompt_uri "False")) (logged_in_world None) [] =
    (Ok (Authentication (Some 76561198000000001) (Some "gordon")), logged_in_world None, []) /\
  _handle_public_prompt_finished simple_lib
    (scripted_env false None (Some ProfileIsNotPublic) [] None)
    (credentials_of (prompt_uri "true")) (logged_in_world None) [] =
    (Ok (NextStep PP_PROMPT__PROFILE_IS_NOT_PUBLIC PUBLIC_PROMPT_FINISHED),
     logged_in_world None, [EvCheckIsPublic (Some 76561198000000001)]).
Proof.
  split.
  - exact (proj1 (public_prompt_outcomes simple_lib
             (scripted_env false None (Some ProfileIsNotPublic) [] None)
             (credentials_of (prompt_uri "False")) (prompt_uri "False")
             (logged_in_world None) [] eq_refl) eq_refl).
  - rewrite (proj2 (public_prompt_outcomes simple_lib
             (scripted_env false None (Some ProfileIsNotPublic) [] None)
             (credentials_of (prompt_uri "true")) (prompt_uri "true")
             (logged_in_world None) [] eq_refl) eq_refl).
    reflexivity.
Defined.

Lemma resume_timeout_cancellation_error_witness :
  (authenticate simple_lib
     (scripted_env false None None [] (Some (OtherException "ConnectionResetError")))
     (Some stored_credentials_example) fresh_world []).1.1 =
    Raise (OtherException "ConnectionResetError").
Proof.
  rewrite (resume_timeout_cancellation_error simple_lib
             (scripted_env false None None [] (Some (OtherException "ConnectionResetError")))
             stored_credentials_example fresh_world []
             (OtherException "ConnectionResetError")
             ltac:(apply not_elem_of_nil) ltac:(apply not_elem_of_nil) eq_refl
             ltac:(discriminate)).
  reflexivity.
Defined.

Lemma update_owned_games_nothing_new_witness :
  _update_owned_games simple_lib (scripted_env true None None [] None)
    (logged_in_world None) [] = (Ok tt, logged_in_world None, []).
Proof.
  exact (update_owned_games_nothing_new simple_lib (scripted_env true None None [] None)
           (logged_in_world None) [] eq_refl).
Defined.

Lemma update_owned_games_twice_witness :
  exists w1 tr1,
    _update_owned_games simple_lib (scripted_env false None None [] None)
      (world_with_new_games 60) [] = (Ok tt, w1, tr1) /\
    _update_owned_games simple_lib (scripted_env false None None [] None) w1 tr1 =
      (Ok tt, w1, tr1).
Proof.
  destruct (update_owned_games_twice simple_lib (scripted_env false None None [] None)
              (world_with_new_games 60) [])
    as (w1 & tr1 & Hfirst & _ & Hsecond).
  - intros t s. simpl. destruct (last t) as [[]|]; reflexivity.
  - exists w1, tr1. split; assumption.
Defined.

Lemma update_owned_games_persists_witness :
  (_update_owned_games simple_lib (scripted_env true None None [] None)
     (world_with_new_games 3) []).2 =
    [EvAddGame (single_purchase_game "1" "game"); EvAddGame (single_purchase_game "2" "game");
     EvAddGame (single_purchase_game "3" "game")].
Proof.
  rewrite (proj1 (update_owned_games_persists simple_lib
                    (scripted_env true None None [] None) (world_with_new_games 3) []
                    ltac:(discriminate) ltac:(vm_compute; lia))).
  reflexivity.
Defined.

Lemma get_owned_games_marks_parsed_witness :
  _owned_games_parsed
    (get_owned_games simple_lib
       (feature_env None ([half_life], Some (KeyError "title")) None (Ok []) (Ok []) (Ok []))
       (logged_in_world None) []).1.2 = true /\
  _owned_games_parsed
    (get_owned_games simple_lib
       (feature_env (Some BackendTimeout) ([half_life], None) None (Ok []) (Ok []) (Ok []))
       (logged_in_world None) []).1.2 = false.
Proof.
  split.
  - exact (proj1 (proj1 (get_owned_games_marks_parsed simple_lib
             (feature_env None ([half_life], Some (KeyError "title")) None
                (Ok []) (Ok []) (Ok []))
             (logged_in_world None) [] ltac:(discriminate)) eq_refl)).
  - exact (proj1 (proj2 (proj2 (get_owned_games_marks_parsed simple_lib
             (feature_env (Some BackendTimeout) ([half_life], None) None
                (Ok []) (Ok []) (Ok []))
             (logged_in_world None) [] ltac:(discriminate)) BackendTimeout eq_refl))).
Defined.

Lemma get_owned_games_iteration_error_witness :
  (get_owned_games simple_lib
     (feature_env None ([half_life], Some ValueError) None (Ok []) (Ok []) (Ok []))
     (logged_in_world None) []).1.1 = Raise UnknownBackendResponse /\
  (get_owned_games simple_lib
     (feature_env None ([half_life], Some TimeoutError) None (Ok []) (Ok []) (Ok []))
     (logged_in_world None) []).1.1 = Raise TimeoutError.
Proof.
  split.
  - exact (proj1 (get_owned_games_iteration_error simple_lib
             (feature_env None ([half_life], Some ValueError) None (Ok []) (Ok []) (Ok []))
             (logged_in_world None) [] [half_life] ValueError
             ltac:(discriminate) eq_refl eq_refl)).
  - exact (proj1 (get_owned_games_iteration_error simple_lib
             (feature_env None ([half_life], Some TimeoutError) None (Ok []) (Ok []) (Ok []))
             (logged_in_world None) [] [half_life] TimeoutError
             ltac:(discriminate) eq_refl eq_refl)).
Defined.

Lemma get_owned_games_listing_witness :
  exists w',
    get_owned_games simple_lib
      (feature_env None ([half_life; portal], None) None (Ok []) (Ok []) (Ok []))
      (logged_in_world None) [] =
      (Ok [single_purchase_game "70" "Half-Life"; single_purchase_game "400" "Portal"], w',
       [EvWaitReady GamesCacheName 90; EvIterGames OwnedGames]) /\
    _persistent_storage_state_modified (shared w') = true.
Proof.
  destruct (get_owned_games_listing simple_lib
              (feature_env None ([half_life; portal], None) None (Ok []) (Ok []) (Ok []))
              (logged_in_world None) [] [half_life; portal]
              ltac:(discriminate) eq_refl eq_refl)
    as (owned_games & extra & w' & Hrun & _ & _ & _ & Hmodified & _).
  exists w'. split; [|exact Hmodified].
  rewrite Hrun.
  assert (Hlist : (get_owned_games simple_lib
            (feature_env None ([half_life; portal], None) None (Ok []) (Ok []) (Ok []))
            (logged_in_world None) []).1.1 =
          Ok [single_purchase_game "70" "Half-Life"; single_purchase_game "400" "Portal"])
    by (vm_compute; reflexivity).
  rewrite Hrun in Hlist. simpl in Hlist. injection Hlist as ->. reflexivity.
Defined.


Lemma prepare_achievements_import_guard_witness :
  (prepare_achievements_context
     (feature_env None ([], None) None (Ok []) (Ok []) (Ok []))
     ["70"; "400"] (logged_in_world None) []).2 =
    [EvRefreshGameStats ["70"; "400"]; EvWaitReady StatsCacheName 600] /\
  (prepare_achievements_context
     (feature_env None ([], None) None (Ok []) (Ok []) (Ok []))
     ["70"; "400"] world_importing_stats []).2 =
    [EvWaitReady StatsCacheName 600].
Proof.
  split.
  - exact (proj1 (proj2 (prepare_achievements_import_guard
             (feature_env None ([], None) None (Ok []) (Ok []) (Ok []))
             ["70"; "400"] (logged_in_world None) [] ltac:(discriminate)) eq_refl) eq_refl).
  - exact (proj1 (prepare_achievements_import_guard
             (feature_env None ([], None) None (Ok []) (Ok []) (Ok []))
             ["70"; "400"] world_importing_stats [] ltac:(discriminate)) eq_refl).
Defined.

Lemma prepare_game_times_import_guard_witness :
  prepare_game_times_context
    (feature_env None ([], None) (Some BackendTimeout) (Ok []) (Ok []) (Ok []))
    ["70"] (logged_in_world None) [] =
    (Raise BackendTimeout, logged_in_world None, [EvRefreshGameTimes]).
Proof.
  exact (proj2 (proj2 (prepare_game_times_import_guard
           (feature_env None ([], None) (Some BackendTimeout) (Ok []) (Ok []) (Ok []))
           ["70"] (logged_in_world None) [] ltac:(discriminate)) eq_refl)
           BackendTimeout eq_refl).
Defined.

Lemma translate_friends_string_ids_witness :
  translate_friends [(KStr "7", alyx); (KStr "8", barney)] [(KStr "8", "Calhoun")] =
    Ok [mkUserInfo "7" "alyx"
          "https://steamcdn-a.akamaihd.net/steamcommunity/public/images/avatars/00/0001fe_full.jpg"
          "https://steamcommunity.com/profiles/7";
        mkUserInfo "8" "barney (Calhoun)"
          "https://steamcdn-a.akamaihd.net/steamcommunity/public/images/avatars/0a/0a0b0c_full.jpg"
          "https://steamcommunity.com/profiles/8"].
Proof.
  rewrite (translate_friends_string_ids [(KStr "7", alyx); (KStr "8", barney)]
             [(KStr "8", "Calhoun")]
             ltac:(repeat constructor; eexists; reflexivity)).
  reflexivity.
Defined.

Lemma translate_friends_key_mismatch_witness :
  translate_friends [(KInt 7, alyx); (KInt 8, barney)] [(KStr "8", "Calhoun")] =
    Raise (KeyError "8").
Proof.
  exact (translate_friends_key_mismatch [(KInt 7, alyx)] [] 8 barney [(KStr "8", "Calhoun")]
           ltac:(repeat constructor) ltac:(eexists; reflexivity) eq_refl).
Defined.


Lemma library_settings_tags_witness :
  get_game_library_settings simple_int "70" (Some simple_collections) fresh_world [] =
    (Ok (mkGameLibrarySettings "70" (Some ["Favourites"]) (Some true)), fresh_world, []) /\
  get_game_library_settings simple_int "400" (Some simple_collections) fresh_world [] =
    (Ok (mkGameLibrarySettings "400" (Some ["Favourites"; "Puzzle"]) (Some false)),
     fresh_world, []).
Proof.
  split.
  - destruct (library_settings_tags simple_int "70" 70 simple_collections fresh_world []
                eq_refl ltac:(discriminate)) as (game_tags & Hrun & -> & _).
    exact Hrun.
  - destruct (library_settings_tags simple_int "400" 400 simple_collections fresh_world []
                eq_refl ltac:(discriminate)) as (game_tags & Hrun & -> & _).
    exact Hrun.
Defined.

Lemma library_settings_edge_cases_witness :
  get_game_library_settings simple_int "portal" (Some simple_collections) fresh_world [] =
    (Raise ValueError, fresh_world, []) /\
  get_game_library_settings simple_int "portal" (Some []) fresh_world [] =
    (Ok (mkGameLibrarySettings "portal" None None), fresh_world, []).
Proof.
  split.
  - exact (proj2 (proj2 (library_settings_edge_cases simple_int "portal" fresh_world []))
             simple_collections eq_refl ltac:(discriminate)).
  - exact (proj1 (proj2 (library_settings_edge_cases simple_int "portal" fresh_world []))).
Defined.

Lemma unlocked_achievements_of_records_witness :
  (get_unlocked_achievements simple_strip simple_stats "70" fresh_world []).1.1 =
    Ok [mkAchievement 1600000000 None "Rocket Man"; mkAchievement 1600000100 None "  "] /\
  get_unlocked_achievements simple_strip simple_stats "400" fresh_world [] =
    (Raise (OtherException "AssertionError"), fresh_world, []).
Proof.
  split.
  - destruct (proj1 (unlocked_achievements_of_records simple_strip simple_stats "70" _
                       fresh_world [] eq_refl)
                ltac:(repeat constructor; discriminate)) as (result & Hrun & _).
    assert (Hlist : (get_unlocked_achievements simple_strip simple_stats "70"
                       fresh_world []).1.1 =
            Ok [mkAchievement 1600000000 None "Rocket Man";
                mkAchievement 1600000100 None "  "])
      by (vm_compute; reflexivity).
    exact Hlist.
  - exact (proj2 (unlocked_achievements_of_records simple_strip simple_stats "400" _
                    fresh_world [] eq_refl)
             eq_refl ltac:(apply Exists_cons_tl, Exists_cons_hd; reflexivity)).
Defined.

Lemma user_presence_unknown_user_witness :
  exists msg,
    get_user_presence string (fun info => ret (name info)) "9" [(KStr "7", alyx)]
      fresh_world [] = (Raise (UnknownError msg), fresh_world, []) /\
    str_in "9" msg = true.
Proof.
  exact (user_presence_unknown_user string (fun info => ret (name info)) "9"
           [(KStr "7", alyx)] fresh_world [] eq_refl).
Defined.


Lemma pass_login_credentials_returns_a_result_witness :
  (exists account_id display_name,
     NextStep PP_PROMPT__PROFILE_IS_NOT_PUBLIC PUBLIC_PROMPT_FINISHED =
       Authentication account_id display_name) \/
  (exists start finish,
     NextStep PP_PROMPT__PROFILE_IS_NOT_PUBLIC PUBLIC_PROMPT_FINISHED =
       NextStep start finish).
Proof.
  exact (pass_login_credentials_returns_a_result simple_lib
           (scripted_env false None (Some ProfileIsNotPublic) [] None)
           (credentials_of (prompt_uri "true")) (prompt_uri "true")
           (logged_in_world None) []
           (NextStep PP_PROMPT__PROFILE_IS_NOT_PUBLIC PUBLIC_PROMPT_FINISHED)
           eq_refl eq_refl eq_refl).
Defined.
